(** * The call-session page of the medical voice agent

    A shallow embedding of
    [src/app/(routes)/dashboard/medical-agent/[sessionId]/page.tsx]:
    the React component [MedicalVoiceAgent], its event handlers and the
    collaborators it talks to (the Vapi event emitter, the report
    endpoint, the toast and the router).

    - JavaScript values of type [unknown] are a small inductive type, and
      property reads are the two reads of the language: [e.k], which
      throws on [null] and [undefined], and [e?.k], which does not.
    - React state is a record; every handler is a computation in a
      state-and-exception monad over the whole world.
    - A closure reads the state of the render that created it: the
      functions that read state take that render's state as an argument.
    - [await] splits [endCall] in the part that runs to the POST and the
      part that runs when the POST settles.
    - Writes to the console and the rendering of the transcript are left
      out; of the JSX only the two buttons are kept. *)

From stdpp Require Import base list strings pretty.
From Stdlib Require Import ZArith Lia.

(** ** JavaScript values *)

#[warnings="-register-all"]
Inductive JsVal : Type :=
| JUndefined
| JNull
| JBool (b : bool)
| JNum (n : Z)
| JStr (s : string)
| JObj (fields : list (string * JsVal)).

(** Own property of an object; a missing property reads [undefined]. *)
Fixpoint field (k : string) (fs : list (string * JsVal)) : JsVal :=
  match fs with
  | [] => JUndefined
  | (k', v) :: fs' => if String.eqb k k' then v else field k fs'
  end.

(** [typeof v] *)
Definition typeof (v : JsVal) : string :=
  match v with
  | JUndefined => "undefined"
  | JNull => "object"
  | JBool _ => "boolean"
  | JNum _ => "number"
  | JStr _ => "string"
  | JObj _ => "object"
  end.

(** ToBoolean *)
Definition truthy (v : JsVal) : bool :=
  match v with
  | JUndefined | JNull => false
  | JBool b => b
  | JNum n => negb (Z.eqb n 0)
  | JStr s => negb (String.eqb s "")
  | JObj _ => true
  end.

(** [v === 'lit'] for a string literal *)
Definition is_str (lit : string) (v : JsVal) : bool :=
  match v with
  | JStr s => String.eqb s lit
  | _ => false
  end.

(** ** Completions: a value or a thrown exception *)

Inductive Completion (A : Type) : Type :=
| Normal (a : A)
| Throw (exn : JsVal).
Arguments Normal {A} a.
Arguments Throw {A} exn.

#[global] Instance Completion_ret : MRet Completion := @Normal.
#[global] Instance Completion_bind : MBind Completion :=
  λ A B f c, match c with Normal a => f a | Throw e => Throw e end.

Definition TypeError : JsVal := JObj [("name", JStr "TypeError")].

(** [v.k]: throws on [null] and [undefined]; a primitive has none of the
    properties this page reads. *)
Definition get (v : JsVal) (k : string) : Completion JsVal :=
  match v with
  | JUndefined | JNull => Throw TypeError
  | JObj fs => Normal (field k fs)
  | _ => Normal JUndefined
  end.

(** [v?.k] *)
Definition get_opt (v : JsVal) (k : string) : Completion JsVal :=
  match v with
  | JUndefined | JNull => Normal JUndefined
  | _ => get v k
  end.

(** [a && b] and [a || b]: the right operand is only evaluated when the
    left one does not decide. *)
Definition js_and (a b : Completion JsVal) : Completion JsVal :=
  x ← a; if truthy x then b else Normal x.

Definition js_or (a b : Completion JsVal) : Completion JsVal :=
  x ← a; if truthy x then Normal x else b.

(** [typeof a === 'string'] and [typeof a === 'object'] *)
Definition typeof_is (t : string) (a : Completion JsVal) : Completion JsVal :=
  x ← a; Normal (JBool (String.eqb (typeof x) t)).

(** ** Data of the page *)

(** The fields of [SessionDetail] the page reads; [selectedDoctor] is
    flattened to the two fields [StartCall] uses. *)
Record SessionDetail := {
  sd_id : Z;
  sd_sessionId : string;
  voiceId : option string;
  agentPrompt : option string
}.

Record Message := { id : string; role : string; text : string }.

(** A function reference: the handler [fn] built by the [closure]-th
    channel-opening run of [StartCall]. Two references are the same
    function exactly when both components agree. *)
Inductive HandlerFn :=
| handleCallStart_fn | handleCallEnd_fn | handleMessage_fn
| handleSpeechStart_fn | handleSpeechEnd_fn | handleError_fn.

Record Listener := { closure : nat; fn : HandlerFn }.

#[global] Instance HandlerFn_eq_dec : EqDecision HandlerFn.
Proof. solve_decision. Defined.
#[global] Instance Listener_eq_dec : EqDecision Listener.
Proof. solve_decision. Defined.

(** The object kept in [vapiHandlersRef.current]. *)
Record Handlers := {
  callStart : Listener;
  callEnd : Listener;
  message : Listener;
  speechStart : Listener;
  speechEnd : Listener;
  error : Listener
}.

(** Argument of [vapi.start]. *)
Inductive StartArg :=
| AssistantId (a : string)
| AgentConfig (voice : string) (systemPrompt : option string).

(** A [Vapi] object as far as the page can tell: the key it was built
    with, the listener table of the event emitter (in registration
    order), the argument of [start], and whether [stop] ran. *)
Record Vapi := {
  v_apiKey : string;
  listeners : list (string * Listener);
  started : option StartArg;
  stopped : bool
}.

(** The state hooks and the ref of [MedicalVoiceAgent]. *)
Record Component := {
  sessionDetail : option SessionDetail;
  callStarted : bool;
  vapiInstance : option nat;
  currentRole : option string;
  liveTranscript : string;
  messages : list Message;
  loading : bool;
  vapiHandlersRef : option Handlers
}.

Record ReportRequest := {
  rq_messages : list Message;
  rq_sessionDetail : option SessionDetail;
  rq_sessionId : string
}.

Inductive ToastLevel := toast_error | toast_success.
Record Toast := { level : ToastLevel; body : JsVal }.

(** Everything a handler can read or change. [channels] holds every
    [Vapi] object ever built, a handle being its position; [awaiting]
    holds, for each [endCall] suspended at its [await], the
    [vapiInstance] its closure captured; [randomUUID n] is the [n]-th
    value [crypto.randomUUID()] returns. *)
Record World := {
  page : Component;
  NEXT_PUBLIC_VAPI_API_KEY : option string;
  NEXT_PUBLIC_VAPI_ASSISTANT_ID : option string;
  sessionId : string;
  randomUUID : nat → string;
  uuidDraws : nat;
  channels : list Vapi;
  posts : list ReportRequest;
  toasts : list Toast;
  routed : list string;
  awaiting : list (option nat)
}.

(** ** Updates *)

Definition with_page (f : Component → Component) (w : World) : World :=
  {| page := f (page w);
     NEXT_PUBLIC_VAPI_API_KEY := NEXT_PUBLIC_VAPI_API_KEY w;
     NEXT_PUBLIC_VAPI_ASSISTANT_ID := NEXT_PUBLIC_VAPI_ASSISTANT_ID w;
     sessionId := sessionId w; randomUUID := randomUUID w;
     uuidDraws := uuidDraws w; channels := channels w; posts := posts w;
     toasts := toasts w; routed := routed w; awaiting := awaiting w |}.

Definition with_uuidDraws (n : nat) (w : World) : World :=
  {| page := page w;
     NEXT_PUBLIC_VAPI_API_KEY := NEXT_PUBLIC_VAPI_API_KEY w;
     NEXT_PUBLIC_VAPI_ASSISTANT_ID := NEXT_PUBLIC_VAPI_ASSISTANT_ID w;
     sessionId := sessionId w; randomUUID := randomUUID w;
     uuidDraws := n; channels := channels w; posts := posts w;
     toasts := toasts w; routed := routed w; awaiting := awaiting w |}.

Definition with_channels (cs : list Vapi) (w : World) : World :=
  {| page := page w;
     NEXT_PUBLIC_VAPI_API_KEY := NEXT_PUBLIC_VAPI_API_KEY w;
     NEXT_PUBLIC_VAPI_ASSISTANT_ID := NEXT_PUBLIC_VAPI_ASSISTANT_ID w;
     sessionId := sessionId w; randomUUID := randomUUID w;
     uuidDraws := uuidDraws w; channels := cs; posts := posts w;
     toasts := toasts w; routed := routed w; awaiting := awaiting w |}.

Definition with_posts (ps : list ReportRequest) (w : World) : World :=
  {| page := page w;
     NEXT_PUBLIC_VAPI_API_KEY := NEXT_PUBLIC_VAPI_API_KEY w;
     NEXT_PUBLIC_VAPI_ASSISTANT_ID := NEXT_PUBLIC_VAPI_ASSISTANT_ID w;
     sessionId := sessionId w; randomUUID := randomUUID w;
     uuidDraws := uuidDraws w; channels := channels w; posts := ps;
     toasts := toasts w; routed := routed w; awaiting := awaiting w |}.

Definition with_toasts (ts : list Toast) (w : World) : World :=
  {| page := page w;
     NEXT_PUBLIC_VAPI_API_KEY := NEXT_PUBLIC_VAPI_API_KEY w;
     NEXT_PUBLIC_VAPI_ASSISTANT_ID := NEXT_PUBLIC_VAPI_ASSISTANT_ID w;
     sessionId := sessionId w; randomUUID := randomUUID w;
     uuidDraws := uuidDraws w; channels := channels w; posts := posts w;
     toasts := ts; routed := routed w; awaiting := awaiting w |}.

Definition with_routed (rs : list string) (w : World) : World :=
  {| page := page w;
     NEXT_PUBLIC_VAPI_API_KEY := NEXT_PUBLIC_VAPI_API_KEY w;
     NEXT_PUBLIC_VAPI_ASSISTANT_ID := NEXT_PUBLIC_VAPI_ASSISTANT_ID w;
     sessionId := sessionId w; randomUUID := randomUUID w;
     uuidDraws := uuidDraws w; channels := channels w; posts := posts w;
     toasts := toasts w; routed := rs; awaiting := awaiting w |}.

Definition with_awaiting (ks : list (option nat)) (w : World) : World :=
  {| page := page w;
     NEXT_PUBLIC_VAPI_API_KEY := NEXT_PUBLIC_VAPI_API_KEY w;
     NEXT_PUBLIC_VAPI_ASSISTANT_ID := NEXT_PUBLIC_VAPI_ASSISTANT_ID w;
     sessionId := sessionId w; randomUUID := randomUUID w;
     uuidDraws := uuidDraws w; channels := channels w; posts := posts w;
     toasts := toasts w; routed := routed w; awaiting := ks |}.

(** ** The monad of handlers: state that survives a throw *)

Definition M (A : Type) : Type := World → Completion A * World.

#[global] Instance M_ret : MRet M := λ A a w, (Normal a, w).
#[global] Instance M_bind : MBind M :=
  λ A B f m w,
    match m w with
    | (Normal a, w') => f a w'
    | (Throw e, w') => (Throw e, w')
    end.

Definition modify (f : World → World) : M unit := λ w, (Normal tt, f w).
Definition reads {A} (f : World → A) : M A := λ w, (Normal (f w), w).
Definition throw {A} (e : JsVal) : M A := λ w, (Throw e, w).
Definition lift {A} (c : Completion A) : M A := λ w, (c, w).

(** [try { body } catch { }] *)
Definition try_catch (body : M unit) : M unit :=
  λ w, match body w with
       | (Normal a, w') => (Normal a, w')
       | (Throw _, w') => (Normal tt, w')
       end.

(** The world a handler leaves behind, returned or thrown. *)
Definition exec {A} (m : M A) (w : World) : World := (m w).2.

(** ** State setters *)

Definition setSessionDetail (d : option SessionDetail) : M unit :=
  modify (with_page (λ c,
    {| sessionDetail := d; callStarted := callStarted c;
       vapiInstance := vapiInstance c; currentRole := currentRole c;
       liveTranscript := liveTranscript c; messages := messages c;
       loading := loading c; vapiHandlersRef := vapiHandlersRef c |})).

Definition setCallStarted (b : bool) : M unit :=
  modify (with_page (λ c,
    {| sessionDetail := sessionDetail c; callStarted := b;
       vapiInstance := vapiInstance c; currentRole := currentRole c;
       liveTranscript := liveTranscript c; messages := messages c;
       loading := loading c; vapiHandlersRef := vapiHandlersRef c |})).

Definition setVapiInstance (v : option nat) : M unit :=
  modify (with_page (λ c,
    {| sessionDetail := sessionDetail c; callStarted := callStarted c;
       vapiInstance := v; currentRole := currentRole c;
       liveTranscript := liveTranscript c; messages := messages c;
       loading := loading c; vapiHandlersRef := vapiHandlersRef c |})).

Definition setCurrentRole (r : option string) : M unit :=
  modify (with_page (λ c,
    {| sessionDetail := sessionDetail c; callStarted := callStarted c;
       vapiInstance := vapiInstance c; currentRole := r;
       liveTranscript := liveTranscript c; messages := messages c;
       loading := loading c; vapiHandlersRef := vapiHandlersRef c |})).

Definition setLiveTranscript (t : string) : M unit :=
  modify (with_page (λ c,
    {| sessionDetail := sessionDetail c; callStarted := callStarted c;
       vapiInstance := vapiInstance c; currentRole := currentRole c;
       liveTranscript := t; messages := messages c;
       loading := loading c; vapiHandlersRef := vapiHandlersRef c |})).

(** [setMessages(prev => f(prev))] *)
Definition setMessages (f : list Message → list Message) : M unit :=
  modify (with_page (λ c,
    {| sessionDetail := sessionDetail c; callStarted := callStarted c;
       vapiInstance := vapiInstance c; currentRole := currentRole c;
       liveTranscript := liveTranscript c; messages := f (messages c);
       loading := loading c; vapiHandlersRef := vapiHandlersRef c |})).

Definition setLoading (b : bool) : M unit :=
  modify (with_page (λ c,
    {| sessionDetail := sessionDetail c; callStarted := callStarted c;
       vapiInstance := vapiInstance c; currentRole := currentRole c;
       liveTranscript := liveTranscript c; messages := messages c;
       loading := b; vapiHandlersRef := vapiHandlersRef c |})).

(** [vapiHandlersRef.current = h] *)
Definition set_vapiHandlersRef (h : option Handlers) : M unit :=
  modify (with_page (λ c,
    {| sessionDetail := sessionDetail c; callStarted := callStarted c;
       vapiInstance := vapiInstance c; currentRole := currentRole c;
       liveTranscript := liveTranscript c; messages := messages c;
       loading := loading c; vapiHandlersRef := h |})).

(** ** Collaborators *)

Definition toast (l : ToastLevel) (msg : JsVal) : M unit :=
  modify (λ w, with_toasts (toasts w ++ [{| level := l; body := msg |}]) w).

Definition router_replace (path : string) : M unit :=
  modify (λ w, with_routed (routed w ++ [path]) w).

(** [crypto.randomUUID()] *)
Definition crypto_randomUUID : M string :=
  λ w, (Normal (randomUUID w (uuidDraws w)), with_uuidDraws (S (uuidDraws w)) w).

(** [new Vapi(apiKey)]: the handle of the new object. *)
Definition new_Vapi (apiKey : string) : M nat :=
  λ w, (Normal (length (channels w)),
        with_channels (channels w ++
          [{| v_apiKey := apiKey; listeners := []; started := None;
              stopped := false |}]) w).

Definition alter_channel (v : nat) (f : Vapi → Vapi) : M unit :=
  modify (λ w, with_channels (alter f v (channels w)) w).

(** [vapi.on(ev, l)]: the emitter appends to its table. *)
Definition vapi_on (v : nat) (ev : string) (l : Listener) : M unit :=
  alter_channel v (λ c,
    {| v_apiKey := v_apiKey c; listeners := listeners c ++ [(ev, l)];
       started := started c; stopped := stopped c |}).

(** Removal of the most recently added registration of [l] for [ev]: the
    table is scanned from its end and one entry is dropped. *)
Fixpoint remove_last (ev : string) (l : Listener)
    (rev_table : list (string * Listener)) : list (string * Listener) :=
  match rev_table with
  | [] => []
  | (ev', l') :: rest =>
      if String.eqb ev ev' && bool_decide (l = l') then rest
      else (ev', l') :: remove_last ev l rest
  end.

Definition off_table (ev : string) (l : Listener)
    (table : list (string * Listener)) : list (string * Listener) :=
  rev (remove_last ev l (rev table)).
Arguments off_table : simpl never.

(** [vapi.off(ev, l)] *)
Definition vapi_off (v : nat) (ev : string) (l : Listener) : M unit :=
  alter_channel v (λ c,
    {| v_apiKey := v_apiKey c;
       listeners := off_table ev l (listeners c);
       started := started c; stopped := stopped c |}).

(** [vapi.start(arg)] *)
Definition vapi_start (v : nat) (arg : StartArg) : M unit :=
  alter_channel v (λ c,
    {| v_apiKey := v_apiKey c; listeners := listeners c;
       started := Some arg; stopped := stopped c |}).

(** [vapi.stop()]. The SDK is not part of the page: whether this call
    throws (the meeting had already ended) is given by [throws]. *)
Definition vapi_stop (throws : bool) (v : nat) : M unit :=
  if throws then throw (JObj [("message", JStr "ejection")])
  else alter_channel v (λ c,
    {| v_apiKey := v_apiKey c; listeners := listeners c;
       started := started c; stopped := true |}).

(** [axios.post('/api/medical-report', body)] up to its [await]. *)
Definition axios_post (body : ReportRequest) : M unit :=
  modify (λ w, with_posts (posts w ++ [body]) w).

(** How an awaited POST settles. *)
Inductive PostResult :=
| Resolved (data : JsVal)
| Rejected (reason : JsVal).

(** ** The page *)

Definition resetCallState : M unit :=
  setCallStarted false ;;
  setVapiInstance None ;;
  setCurrentRole None ;;
  setLiveTranscript "" ;;
  setLoading false.

(** [!s] for [s : string | undefined] *)
Definition absent (s : option string) : bool :=
  match s with
  | None => true
  | Some k => String.eqb k ""
  end.

(** The six closures one run of [StartCall] builds. *)
Definition handlers_of (c : nat) : Handlers :=
  {| callStart := {| closure := c; fn := handleCallStart_fn |};
     callEnd := {| closure := c; fn := handleCallEnd_fn |};
     message := {| closure := c; fn := handleMessage_fn |};
     speechStart := {| closure := c; fn := handleSpeechStart_fn |};
     speechEnd := {| closure := c; fn := handleSpeechEnd_fn |};
     error := {| closure := c; fn := handleError_fn |} |}.

(** [StartCall], in the render whose state is [r]. *)
Definition StartCall (r : Component) : M unit :=
  match sessionDetail r with
  | None => mret tt
  | Some detail =>
      setLoading true ;;
      apiKey ← reads NEXT_PUBLIC_VAPI_API_KEY;
      if absent apiKey then
        setLoading false ;;
        toast toast_error (JStr "Missing NEXT_PUBLIC_VAPI_API_KEY")
      else
        vapi ← new_Vapi (default "" apiKey);
        setVapiInstance (Some vapi) ;;
        let VapiAgentConfig :=
          AgentConfig (default "will" (voiceId detail)) (agentPrompt detail) in
        let hs := handlers_of vapi in
        set_vapiHandlersRef (Some hs) ;;
        vapi_on vapi "call-start" (callStart hs) ;;
        vapi_on vapi "call-end" (callEnd hs) ;;
        vapi_on vapi "message" (message hs) ;;
        vapi_on vapi "speech-start" (speechStart hs) ;;
        vapi_on vapi "speech-end" (speechEnd hs) ;;
        vapi_on vapi "error" (error hs) ;;
        assistantId ← reads NEXT_PUBLIC_VAPI_ASSISTANT_ID;
        if absent assistantId then vapi_start vapi VapiAgentConfig
        else vapi_start vapi (AssistantId (default "" assistantId))
  end.

Definition handleCallStart : M unit :=
  setLoading false ;;
  setCallStarted true.

Definition handleCallEnd : M unit :=
  resetCallState ;;
  set_vapiHandlersRef None.

(** The condition of [handleMessage]. *)
Definition transcript_guard (msg : JsVal) : Completion JsVal :=
  js_and
    (js_and
       (js_and (t ← get_opt msg "type"; Normal (JBool (is_str "transcript" t)))
               (typeof_is "string" (get msg "role")))
       (typeof_is "string" (get msg "transcriptType")))
    (typeof_is "string" (get msg "transcript")).

Definition handleMessage (msg : JsVal) : M unit :=
  c ← lift (transcript_guard msg);
  if truthy c then
    role ← lift (get msg "role");
    transcriptType ← lift (get msg "transcriptType");
    transcript ← lift (get msg "transcript");
    match role, transcriptType, transcript with
    | JStr role, JStr transcriptType, JStr transcript =>
        if String.eqb transcriptType "partial" then
          setLiveTranscript transcript ;;
          setCurrentRole (Some role)
        else if String.eqb transcriptType "final" then
          uuid ← crypto_randomUUID;
          setMessages (λ prev,
            prev ++ [{| id := uuid; role := role; text := transcript |}]) ;;
          setLiveTranscript "" ;;
          setCurrentRole None
        else mret tt
    | _, _, _ => mret tt (* the guard has narrowed all three to strings *)
    end
  else mret tt.

Definition handleSpeechStart : M unit := setCurrentRole (Some "assistant").
Definition handleSpeechEnd : M unit := setCurrentRole (Some "user").

(** [nested] and [nestedInner] of [handleError]:
    [(e?.error && typeof e.error === 'object') ? e.error : undefined]. *)
Definition sub_error (e : JsVal) : Completion JsVal :=
  c ← js_and (get_opt e "error") (typeof_is "object" (get e "error"));
  if truthy c then get e "error" else Normal JUndefined.

(** [typeof e?.k === 'string' && e.k] *)
Definition string_at (e : JsVal) (k : string) : Completion JsVal :=
  js_and (typeof_is "string" (get_opt e k)) (get e k).

(** The [msg] of [handleError]. *)
Definition error_msg (err : JsVal) : Completion JsVal :=
  nested ← sub_error err;
  nestedInner ← sub_error nested;
  js_or
    (js_or
       (js_or
          (js_or
             (js_or (string_at err "errorMsg")
                    (string_at nested "errorMsg"))
             (string_at nested "message"))
          (string_at nestedInner "message"))
       (string_at err "message"))
    (if String.eqb (typeof err) "string" then Normal err
     else Normal (JStr "Call ended unexpectedly.")).

Definition handleError (err : JsVal) : M unit :=
  msg ← lift (error_msg err);
  resetCallState ;;
  set_vapiHandlersRef None ;;
  toast toast_error msg.

(** [GenerateReport] up to its [await], in the render whose state is [r]. *)
Definition GenerateReport_request (r : Component) : M unit :=
  setLoading true ;;
  sid ← reads sessionId;
  axios_post {| rq_messages := messages r;
                rq_sessionDetail := sessionDetail r;
                rq_sessionId := sid |}.

(** [GenerateReport] from the point its POST settles: a rejected POST
    rejects [GenerateReport]. *)
Definition GenerateReport_settled (res : PostResult) : M JsVal :=
  match res with
  | Rejected reason => throw reason
  | Resolved data => setLoading false ;; mret data
  end.

(** [endCall] up to its [await]: the continuation keeps the
    [vapiInstance] of the render [r]. *)
Definition endCall_request (r : Component) : M unit :=
  GenerateReport_request r ;;
  modify (λ w, with_awaiting (awaiting w ++ [vapiInstance r]) w).

(** [endCall] from the point the awaited [GenerateReport] settles, for the
    captured [vapiInstance]. The ref is read when this part runs. *)
Definition endCall_settled (vapiInstance : option nat) (res : PostResult)
    (stop_throws : bool) : M unit :=
  GenerateReport_settled res ;;
  match vapiInstance with
  | None => mret tt
  | Some vapi =>
      try_catch (vapi_stop stop_throws vapi) ;;
      try_catch (
        handlers ← reads (λ w, vapiHandlersRef (page w));
        match handlers with
        | Some hs =>
            vapi_off vapi "call-start" (callStart hs) ;;
            vapi_off vapi "call-end" (callEnd hs) ;;
            vapi_off vapi "message" (message hs) ;;
            vapi_off vapi "speech-start" (speechStart hs) ;;
            vapi_off vapi "speech-end" (speechEnd hs) ;;
            vapi_off vapi "error" (error hs)
        | None => mret tt
        end) ;;
      resetCallState ;;
      set_vapiHandlersRef None ;;
      toast toast_success (JStr "Your report is generated!") ;;
      router_replace "/dashboard"
  end.

(** ** The channel delivers an event *)

Definition invoke (l : Listener) (payload : JsVal) : M unit :=
  match fn l with
  | handleCallStart_fn => handleCallStart
  | handleCallEnd_fn => handleCallEnd
  | handleMessage_fn => handleMessage payload
  | handleSpeechStart_fn => handleSpeechStart
  | handleSpeechEnd_fn => handleSpeechEnd
  | handleError_fn => handleError payload
  end.

Fixpoint invoke_all (ls : list Listener) (payload : JsVal) : M unit :=
  match ls with
  | [] => mret tt
  | l :: ls' => invoke l payload ;; invoke_all ls' payload
  end.

(** The listeners of [ev] in a table, in registration order. *)
Definition listeners_for (ev : string) (table : list (string * Listener))
    : list Listener :=
  (filter (λ p, String.eqb ev p.1 = true) table).*2.

(** What the emitter throws when ['error'] is emitted and nobody listens
    for it. (It throws the payload itself when that is an [Error] object;
    the page never looks at the value thrown.) *)
Definition unhandled_error (payload : JsVal) : JsVal :=
  JObj [("message", JStr "Unhandled error."); ("context", payload)].

(** [emit(ev, payload)] on the [Vapi] object [v]: the listeners registered
    for [ev] when the event is emitted are called in order. With no
    listener the call does nothing, except for ['error'], which the
    emitter then throws. *)
Definition emit (v : nat) (ev : string) (payload : JsVal) : M unit :=
  table ← reads (λ w, from_option listeners [] (channels w !! v));
  match listeners_for ev table with
  | [] => if String.eqb ev "error" then throw (unhandled_error payload)
          else mret tt
  | ls => invoke_all ls payload
  end.

(** ** The buttons *)

(** [{sessionDetail && ( ... {!callStarted ? <Button onClick={StartCall}
    disabled={loading}> : <Button onClick={endCall} disabled={loading}>})}] *)
Definition start_enabled (r : Component) : bool :=
  bool_decide (is_Some (sessionDetail r)) && negb (callStarted r)
  && negb (loading r).

Definition disconnect_enabled (r : Component) : bool :=
  bool_decide (is_Some (sessionDetail r)) && callStarted r
  && negb (loading r).

Definition click_start : M unit :=
  r ← reads page;
  if start_enabled r then StartCall r else mret tt.

Definition click_disconnect : M unit :=
  r ← reads page;
  if disconnect_enabled r then endCall_request r else mret tt.

(** ** Runs of the page *)

Inductive Action :=
| SessionLoaded (d : SessionDetail)
| CallStartCall
| CallEndCall
| PostSettles (i : nat) (res : PostResult) (stop_throws : bool)
| Emit (v : nat) (ev : string) (payload : JsVal)
| ClickStart
| ClickDisconnect.

(** Settling the [i]-th suspended [endCall]. *)
Definition settle (i : nat) (res : PostResult) (stop_throws : bool) : M unit :=
  ks ← reads awaiting;
  match ks !! i with
  | None => mret tt
  | Some k =>
      modify (with_awaiting (delete i ks)) ;;
      endCall_settled k res stop_throws
  end.

Definition perform (a : Action) : M unit :=
  match a with
  | SessionLoaded d => setSessionDetail (Some d)
  | CallStartCall => r ← reads page; StartCall r
  | CallEndCall => r ← reads page; endCall_request r
  | PostSettles i res stop_throws => settle i res stop_throws
  | Emit v ev payload => emit v ev payload
  | ClickStart => click_start
  | ClickDisconnect => click_disconnect
  end.

(** An exception that leaves a handler is not caught by the page: the
    world it left behind is where the next action starts. *)
Definition step (w : World) (a : Action) : World := exec (perform a) w.

Definition run (w : World) (tr : list Action) : World := foldl step w tr.

(** The page as first rendered. *)
Definition mount (apiKey assistantId : option string) (sid : string)
    (uuid : nat → string) : World :=
  {| page := {| sessionDetail := None; callStarted := false;
                vapiInstance := None; currentRole := None;
                liveTranscript := ""; messages := [];
                loading := false; vapiHandlersRef := None |};
     NEXT_PUBLIC_VAPI_API_KEY := apiKey;
     NEXT_PUBLIC_VAPI_ASSISTANT_ID := assistantId;
     sessionId := sid; randomUUID := uuid; uuidDraws := 0;
     channels := []; posts := []; toasts := []; routed := [];
     awaiting := [] |}.

(** ** Vocabulary of the statements *)

(** No call: the flags as [resetCallState] leaves them. *)
Definition idle (c : Component) : bool :=
  negb (callStarted c) && bool_decide (vapiInstance c = None)
  && negb (loading c).

(** The component state after [resetCallState]. *)
Definition reset_page (c : Component) : Component :=
  {| sessionDetail := sessionDetail c; callStarted := false;
     vapiInstance := None; currentRole := None; liveTranscript := "";
     messages := messages c; loading := false;
     vapiHandlersRef := vapiHandlersRef c |}.

(** A transcript message as the channel sends it: an object tagged
    ['transcript'] whose [role], [transcriptType] and [transcript] are
    strings. *)
Definition transcript_event (kind role text : string) (msg : JsVal) : Prop :=
  ∃ fs, msg = JObj fs
        ∧ field "type" fs = JStr "transcript"
        ∧ field "role" fs = JStr role
        ∧ field "transcriptType" fs = JStr kind
        ∧ field "transcript" fs = JStr text.

(** Anything else: a wrong tag, or a missing or mistyped field. *)
Definition malformed (msg : JsVal) : Prop :=
  ¬ ∃ kind role text, transcript_event kind role text msg.

(** The transcript handler fed a sequence of messages. *)
Definition deliver (w : World) (msgs : list JsVal) : World :=
  foldl (λ w m, exec (handleMessage m) w) w msgs.

(** Every id in the log is a value [crypto.randomUUID()] has returned. *)
Definition ids_drawn (w : World) : Prop :=
  ∀ m, m ∈ messages (page w) →
       ∃ i, i < uuidDraws w ∧ randomUUID w i = id m.

(** The next value of [crypto.randomUUID()] differs from all earlier
    ones. *)
Definition next_uuid_fresh (w : World) : Prop :=
  ∀ i, i < uuidDraws w → randomUUID w i ≠ randomUUID w (uuidDraws w).

(** *** The error normalizer as a list of rules *)

(** The [error] sub-object of a value, when it has one. *)
Definition error_child (e : JsVal) : JsVal :=
  match e with
  | JObj fs => match field "error" fs with
               | JObj gs => JObj gs
               | _ => JUndefined
               end
  | _ => JUndefined
  end.

(** An extraction rule: the number of [error] levels to descend, then the
    field to read. *)
Definition Rule : Type := nat * string.

(** The string a rule finds: an empty string does not count. *)
Definition extract (e : JsVal) (rule : Rule) : option string :=
  match Nat.iter rule.1 error_child e with
  | JObj fs => match field rule.2 fs with
               | JStr s => if String.eqb s "" then None else Some s
               | _ => None
               end
  | _ => None
  end.

Fixpoint first_match (rules : list Rule) (e : JsVal) : option string :=
  match rules with
  | [] => None
  | rule :: rules' =>
      match extract e rule with
      | Some s => Some s
      | None => first_match rules' e
      end
  end.

(** First matching rule, else the input itself when it is a string, else
    the fixed message. *)
Definition resolve (rules : list Rule) (fallback : string) (e : JsVal)
    : string :=
  match first_match rules e with
  | Some s => s
  | None => match e with JStr s => s | _ => fallback end
  end.

(** The order [handleError] uses. *)
Definition handleError_rules : list Rule :=
  [(0, "errorMsg"); (1, "errorMsg"); (1, "message"); (2, "message");
   (0, "message")].

(** The order as the specification words it: the direct message field,
    then the message one level down, then the message two levels down;
    the fixed message is quoted without a full stop. *)
Definition specified_rules : list Rule :=
  [(0, "message"); (1, "message"); (2, "message")].

Definition specified_message (e : JsVal) : string :=
  resolve specified_rules "Call ended unexpectedly" e.

(** The part of the world outside the page state, the toasts and the
    count of identifiers drawn. *)
Definition same_outside (w w' : World) : Prop :=
  channels w' = channels w ∧ posts w' = posts w ∧ routed w' = routed w
  ∧ awaiting w' = awaiting w ∧ randomUUID w' = randomUUID w
  ∧ sessionId w' = sessionId w
  ∧ NEXT_PUBLIC_VAPI_API_KEY w' = NEXT_PUBLIC_VAPI_API_KEY w
  ∧ NEXT_PUBLIC_VAPI_ASSISTANT_ID w' = NEXT_PUBLIC_VAPI_ASSISTANT_ID w.

(** *** Report submissions along a run *)

(** Does action [a], taken in world [w], run [endCall]? *)
Definition invokes_endCall (w : World) (a : Action) : bool :=
  match a with
  | CallEndCall => true
  | ClickDisconnect => disconnect_enabled (page w)
  | _ => false
  end.

(** The body [endCall] posts when it is run in world [w]. *)
Definition report_of (w : World) : ReportRequest :=
  {| rq_messages := messages (page w);
     rq_sessionDetail := sessionDetail (page w);
     rq_sessionId := sessionId w |}.

(** The reports a run asks for: one for each run of [endCall], built from
    the world that run starts in. *)
Fixpoint submissions (w : World) (tr : list Action) : list ReportRequest :=
  match tr with
  | [] => []
  | a :: tr' =>
      (if invokes_endCall w a then [report_of w] else [])
      ++ submissions (step w a) tr'
  end.

Fixpoint stop_calls (w : World) (tr : list Action) : nat :=
  match tr with
  | [] => 0
  | a :: tr' =>
      (if invokes_endCall w a then 1 else 0) + stop_calls (step w a) tr'
  end.

(** The listener table one run of [StartCall] leaves on the [Vapi] object
    it built: one entry for each event. *)
Definition registered_by (c : nat) : list (string * Listener) :=
  [("call-start", callStart (handlers_of c));
   ("call-end", callEnd (handlers_of c));
   ("message", message (handlers_of c));
   ("speech-start", speechStart (handlers_of c));
   ("speech-end", speechEnd (handlers_of c));
   ("error", error (handlers_of c))].

(** ** A consultation, step by step *)

Definition demo_session : SessionDetail :=
  {| sd_id := 1; sd_sessionId := "s-42"; voiceId := None;
     agentPrompt := Some "You are a general physician." |}.

(** The page with its session loaded; identifiers are drawn as ["0"],
    ["1"], ... *)
Definition demo_ready : World :=
  step (mount (Some "vapi-key") None "s-42" pretty) (SessionLoaded demo_session).

(** The same page in a deployment without the API key. *)
Definition demo_no_key : World :=
  step (mount None None "s-42" pretty) (SessionLoaded demo_session).

Definition transcript_message (kind who said : string) : JsVal :=
  JObj [("type", JStr "transcript"); ("role", JStr who);
        ("transcriptType", JStr kind); ("transcript", JStr said)].

(** Start clicked and the channel has reported call-start. *)
Definition demo_active : World :=
  run demo_ready [ClickStart; Emit 0 "call-start" JUndefined].

(** ... and the user's first sentence is final. *)
Definition demo_talking : World :=
  step demo_active
    (Emit 0 "message" (transcript_message "final" "user" "I have a headache")).

(** The [Vapi] object of the demo call. *)
Definition demo_channel : Vapi :=
  {| v_apiKey := "vapi-key"; listeners := registered_by 0;
     started := Some (AgentConfig "will" (Some "You are a general physician."));
     stopped := false |}.

(** ** What the page shows *)

(** [l.slice(-n)]: the last [n] elements, all of them when there are
    fewer. *)
Definition slice_last {A} (n : nat) (l : list A) : list A :=
  drop (length l - n) l.

(** The part of the page below the status bar: the finalized messages on
    screen (each keyed by its id), the live line [{currentRole} :
    {liveTranscript}], and the one button with its [disabled] flag. *)
Record MainContent := {
  shown : list Message;
  live : option (option string * string);
  button_starts : bool;
  button_disabled : bool
}.

Record Screen := {
  status : string;
  main : option MainContent
}.

(** What [MedicalVoiceAgent] returns, in the render whose state is [r]. *)
Definition render (r : Component) : Screen :=
  {| status := if callStarted r then "Connected..." else "Not Connected";
     main :=
       match sessionDetail r with
       | None => None
       | Some _ =>
           Some {| shown := slice_last 4 (messages r);
                   live := if negb (String.eqb (liveTranscript r) "")
                           then Some (currentRole r, liveTranscript r)
                           else None;
                   button_starts := negb (callStarted r);
                   button_disabled := loading r |}
       end |}.

(** ** More vocabulary *)

(** From [w] to [w'], the log only grew, and by one entry for each
    identifier drawn, carrying the identifiers in the order drawn. *)
Definition log_grew (w w' : World) : Prop :=
  randomUUID w' = randomUUID w
  ∧ ∃ added,
      messages (page w') = messages (page w) ++ added
      ∧ uuidDraws w' = uuidDraws w + length added
      ∧ id <$> added = randomUUID w <$> seq (uuidDraws w) (length added).

(** The argument [StartCall] passes to [vapi.start]. *)
Definition start_arg (w : World) (detail : SessionDetail) : StartArg :=
  if absent (NEXT_PUBLIC_VAPI_ASSISTANT_ID w)
  then AgentConfig (default "will" (voiceId detail)) (agentPrompt detail)
  else AssistantId (default "" (NEXT_PUBLIC_VAPI_ASSISTANT_ID w)).

(** The page state once a reset handler has run and cleared the ref. *)
Definition cleared_page (c : Component) : Component :=
  {| sessionDetail := sessionDetail c; callStarted := false;
     vapiInstance := None; currentRole := None; liveTranscript := "";
     messages := messages c; loading := false; vapiHandlersRef := None |}.

(** The world [StartCall] leaves when it opens a channel for the session
    [detail]: a new [Vapi] object at the end of [channels], built with
    the key, carrying the six listeners and started; the page holds its
    handle and the handlers and is loading. *)
Definition opened (detail : SessionDetail) (w : World) : World :=
  with_channels
    (channels w ++
       [{| v_apiKey := default "" (NEXT_PUBLIC_VAPI_API_KEY w);
           listeners := registered_by (length (channels w));
           started := Some (start_arg w detail);
           stopped := false |}])
    (with_page (λ c,
       {| sessionDetail := sessionDetail c; callStarted := callStarted c;
          vapiInstance := Some (length (channels w));
          currentRole := currentRole c;
          liveTranscript := liveTranscript c; messages := messages c;
          loading := true;
          vapiHandlersRef := Some (handlers_of (length (channels w))) |}) w).

(** The page after an error on the first channel and a second call that
    has become active. *)
Definition demo_second_call : World :=
  run demo_active
    [Emit 0 "error" (JStr "Meeting has ended"); ClickStart;
     Emit 1 "call-start" JUndefined].


(** * Properties *)

(** ** Reasoning about handlers *)

Lemma idle_inv c :
  idle c = true ↔
  callStarted c = false ∧ vapiInstance c = None ∧ loading c = false.
Proof.
  unfold idle. rewrite !andb_true_iff, !negb_true_iff, bool_decide_eq_true.
  tauto.
Qed.

Lemma is_str_true lit v : is_str lit v = true → v = JStr lit.
Proof.
  destruct v; simpl; try discriminate.
  intros H. apply String.eqb_eq in H. by subst.
Qed.

Lemma typeof_string v :
  String.eqb (typeof v) "string" = true → ∃ s, v = JStr s.
Proof. destruct v; simpl; try discriminate. eauto. Qed.

Lemma transcript_guard_event msg c :
  transcript_guard msg = Normal c → truthy c = true →
  ∃ kind role text, transcript_event kind role text msg.
Proof.
  destruct msg as [| | | | |fs]; simpl; try (intros [= <-]; discriminate).
  unfold transcript_guard, js_and, typeof_is; simpl.
  destruct (is_str "transcript" (field "type" fs)) eqn:Ht; simpl;
    [|intros [= <-]; discriminate].
  destruct (String.eqb (typeof (field "role" fs)) "string") eqn:Hr; simpl;
    [|intros [= <-]; discriminate].
  destruct (String.eqb (typeof (field "transcriptType" fs)) "string") eqn:Hk;
    simpl; [|intros [= <-]; discriminate].
  destruct (String.eqb (typeof (field "transcript" fs)) "string") eqn:Hx;
    simpl; [|intros [= <-]; discriminate].
  intros _ _.
  apply is_str_true in Ht.
  apply typeof_string in Hr as [role Hr].
  apply typeof_string in Hk as [kind Hk].
  apply typeof_string in Hx as [text Hx].
  exists kind, role, text, fs. done.
Qed.

Lemma transcript_guard_total msg : ∃ c, transcript_guard msg = Normal c.
Proof.
  destruct msg as [| | | | |fs]; simpl; eauto.
  unfold transcript_guard, js_and, typeof_is; simpl.
  destruct (is_str "transcript" (field "type" fs)); simpl; eauto.
  destruct (String.eqb (typeof (field "role" fs)) "string"); simpl; eauto.
  destruct (String.eqb (typeof (field "transcriptType" fs)) "string");
    simpl; eauto.
Qed.

Lemma handleMessage_event kind role text msg w :
  transcript_event kind role text msg →
  handleMessage msg w =
    (if String.eqb kind "partial" then
       setLiveTranscript text ;; setCurrentRole (Some role)
     else if String.eqb kind "final" then
       uuid ← crypto_randomUUID;
       setMessages (λ prev,
         prev ++ [{| id := uuid; role := role; text := text |}]) ;;
       setLiveTranscript "" ;;
       setCurrentRole None
     else mret tt) w.
Proof.
  intros (fs & -> & Ht & Hr & Hk & Hx).
  unfold handleMessage, transcript_guard, js_and, typeof_is, lift,
    mbind, M_bind; simpl.
  rewrite Ht, Hr, Hk, Hx; simpl. reflexivity.
Qed.

(** ** Transcript assembler *)

(** C7: a well-formed [final] transcript message makes the log one entry
    longer; the new entry is last, carries the role and the text of the
    message and the identifier [crypto.randomUUID()] returned, which no
    earlier entry carries; the earlier entries are as they were; the
    in-progress transcript and its speaker are cleared. *)
Theorem final_event_appends_one_entry (w : World) (msg : JsVal)
    (who said : string) :
  transcript_event "final" who said msg →
  ids_drawn w →
  next_uuid_fresh w →
  ∃ w' entry,
    handleMessage msg w = (Normal tt, w')
    ∧ messages (page w') = messages (page w) ++ [entry]
    ∧ length (messages (page w')) = S (length (messages (page w)))
    ∧ role entry = who ∧ text entry = said
    ∧ id entry = randomUUID w (uuidDraws w)
    ∧ (id entry ∉ id <$> messages (page w))
    ∧ liveTranscript (page w') = ""
    ∧ currentRole (page w') = None
    ∧ ids_drawn w'.
Proof.
  intros Hev Hdrawn Hfresh.
  rewrite (handleMessage_event _ _ _ _ _ Hev); simpl.
  eexists _, {| id := randomUUID w (uuidDraws w); role := who; text := said |}.
  split; [reflexivity|]. simpl.
  repeat split.
  - rewrite length_app; simpl; lia.
  - intros Hin. apply list_elem_of_fmap in Hin as (m & Hid & Hm).
    destruct (Hdrawn m Hm) as (i & Hi & Hgen).
    apply (Hfresh i Hi). congruence.
  - intros m Hm. simpl in *. apply elem_of_app in Hm as [Hm|Hm].
    + destruct (Hdrawn m Hm) as (i & Hi & Hgen). exists i. split; [lia|done].
    + apply list_elem_of_singleton in Hm as ->. simpl.
      exists (uuidDraws w). split; [lia|done].
Qed.

Lemma partial_event_step kind who said msg w :
  transcript_event kind who said msg → kind = "partial" →
  currentRole (page (exec (handleMessage msg) w)) = Some who
  ∧ liveTranscript (page (exec (handleMessage msg) w)) = said
  ∧ messages (page (exec (handleMessage msg) w)) = messages (page w).
Proof.
  intros Hev ->. unfold exec.
  rewrite (handleMessage_event _ _ _ _ _ Hev). done.
Qed.

Lemma partial_events_keep_log w msgs :
  Forall (λ m, ∃ r t, transcript_event "partial" r t m) msgs →
  messages (page (deliver w msgs)) = messages (page w).
Proof.
  intros Hall. revert w.
  induction Hall as [|m msgs (r & t & Hm) _ IH]; intros w; [done|].
  simpl. rewrite IH.
  by destruct (partial_event_step _ _ _ _ w Hm eq_refl) as (_ & _ & ->).
Qed.

(** C8: after any sequence of well-formed [partial] transcript messages
    the in-progress transcript and its speaker are the text and the role
    of the last message received, whatever came before, and the log is
    the one the sequence started from. *)
Theorem partial_events_replace_in_progress (w : World)
    (earlier : list JsVal) (msg : JsVal) (who said : string) :
  Forall (λ m, ∃ r t, transcript_event "partial" r t m) earlier →
  transcript_event "partial" who said msg →
  currentRole (page (deliver w (earlier ++ [msg]))) = Some who
  ∧ liveTranscript (page (deliver w (earlier ++ [msg]))) = said
  ∧ messages (page (deliver w (earlier ++ [msg]))) = messages (page w).
Proof.
  intros Hearlier Hmsg. unfold deliver. rewrite foldl_app. simpl.
  fold (deliver w earlier).
  destruct (partial_event_step _ _ _ _ (deliver w earlier) Hmsg eq_refl)
    as (Hrole & Htext & Hlog).
  rewrite Hrole, Htext, Hlog. repeat split.
  by apply partial_events_keep_log.
Qed.

(** C9: a message that is not a well-formed transcript message (wrong
    tag, a missing or mistyped field, or no object at all) makes
    [handleMessage] return normally, with nothing changed: neither the
    log nor the in-progress transcript, nor anything else. *)
Theorem malformed_message_is_ignored (w : World) (msg : JsVal) :
  malformed msg → handleMessage msg w = (Normal tt, w).
Proof.
  intros Hbad. unfold handleMessage, lift, mbind, M_bind.
  destruct (transcript_guard_total msg) as [c Hc]. rewrite Hc.
  destruct (truthy c) eqn:Htruthy; [|done].
  exfalso. apply Hbad. by eapply transcript_guard_event.
Qed.

(** ** Reset paths *)

Lemma resetCallState_spec w :
  resetCallState w = (Normal tt, with_page reset_page w).
Proof. reflexivity. Qed.

(** C10: [resetCallState] rewrites the call-started flag, the channel
    instance, the current speaker, the in-progress transcript and the
    loading flag and nothing else; and the three ways back to the idle
    state (both halves of [endCall], the call-end handler and the error
    handler) leave the log of finalized messages as it was. *)
Theorem reset_paths_keep_the_log (w : World) :
  exec resetCallState w = with_page reset_page w
  ∧ messages (page (exec handleCallEnd w)) = messages (page w)
  ∧ (∀ err, messages (page (exec (handleError err) w)) = messages (page w))
  ∧ (∀ r, messages (page (exec (endCall_request r) w)) = messages (page w))
  ∧ (∀ k res stop_throws,
       messages (page (exec (endCall_settled k res stop_throws) w))
       = messages (page w)).
Proof.
  repeat split; try done.
  - intros err. unfold exec, handleError, lift, mbind, M_bind.
    by destruct (error_msg err).
  - intros [v|] [data|reason] [|]; try reflexivity;
      unfold exec, endCall_settled, try_catch, mbind, M_bind, reads; simpl;
      by destruct (vapiHandlersRef (page w)).
Qed.

(** ** Start *)

(** C5: with a session loaded and no API key (unset or empty),
    [StartCall] from the idle state returns at once: the one thing it
    leaves behind is the error toast naming the missing key. The page
    state is the idle state it started from, no [Vapi] object has been
    built and so no listener is registered anywhere, the handler ref is
    untouched, and nothing was posted. *)
Theorem StartCall_without_api_key (w : World) (d : SessionDetail) :
  sessionDetail (page w) = Some d →
  absent (NEXT_PUBLIC_VAPI_API_KEY w) = true →
  idle (page w) = true →
  StartCall (page w) w =
    (Normal tt,
     with_toasts (toasts w ++
       [{| level := toast_error;
           body := JStr "Missing NEXT_PUBLIC_VAPI_API_KEY" |}]) w).
Proof.
  intros Hd Hkey Hidle. unfold StartCall. rewrite Hd.
  unfold mbind, M_bind, reads; simpl. rewrite Hkey; simpl.
  destruct w as [[sd cs vi cr lt ms ld ref] ? ? ? ? ? ? ? ? ? ?].
  apply idle_inv in Hidle as (Hcs & _ & Hld); simpl in *.
  by subst.
Qed.

(** ** Error normalizer *)

Lemma sub_error_spec e : sub_error e = Normal (error_child e).
Proof.
  destruct e as [| | | | |fs]; try reflexivity.
  unfold sub_error, js_and, typeof_is; simpl.
  destruct (field "error" fs) as [| |[|]|n|s|gs]; simpl; try reflexivity.
  - destruct (Z.eqb n 0) eqn:Hn; simpl; by rewrite ?Hn.
  - destruct (String.eqb s "") eqn:Hs; simpl; by rewrite ?Hs.
Qed.

Lemma js_or_string_at e k rest :
  js_or (string_at e k) rest =
    match extract e (0, k) with
    | Some s => Normal (JStr s)
    | None => rest
    end.
Proof.
  unfold extract, string_at, js_and, js_or, typeof_is; simpl.
  destruct e as [| | | | |fs]; try reflexivity; simpl.
  destruct (field k fs) as [| |b|n|s|gs]; simpl; try reflexivity.
  by destruct (String.eqb s "").
Qed.

Lemma extract_truthy e rule s :
  extract e rule = Some s → truthy (JStr s) = true.
Proof.
  unfold extract. destruct (Nat.iter _ _ _) as [| | | | |fs]; try discriminate.
  destruct (field _ fs) as [| | | |s'|]; try discriminate.
  destruct (String.eqb s' "") eqn:Hs; [discriminate|].
  intros [= <-]. simpl. by rewrite Hs.
Qed.

Lemma js_or_found s rest :
  truthy (JStr s) = true → js_or (Normal (JStr s)) rest = Normal (JStr s).
Proof. intros H. unfold js_or; simpl in *. by rewrite H. Qed.

Lemma extract_child e n k :
  extract (error_child e) (n, k) = extract e (S n, k).
Proof.
  unfold extract; simpl. by rewrite <- Nat.iter_succ_r.
Qed.

Lemma error_msg_resolves err :
  error_msg err =
    Normal (JStr (resolve handleError_rules "Call ended unexpectedly." err)).
Proof.
  unfold error_msg. rewrite sub_error_spec; simpl.
  rewrite sub_error_spec; simpl.
  unfold resolve, handleError_rules, first_match.
  rewrite <- !extract_child.
  rewrite js_or_string_at.
  destruct (extract err (0, "errorMsg")) as [s1|] eqn:E1.
  { rewrite !js_or_found by eauto using extract_truthy. done. }
  rewrite js_or_string_at.
  destruct (extract (error_child err) (0, "errorMsg")) as [s2|] eqn:E2.
  { rewrite !js_or_found by eauto using extract_truthy. done. }
  rewrite js_or_string_at.
  destruct (extract (error_child err) (0, "message")) as [s3|] eqn:E3.
  { rewrite !js_or_found by eauto using extract_truthy. done. }
  rewrite js_or_string_at.
  destruct (extract (error_child (error_child err)) (0, "message"))
    as [s4|] eqn:E4.
  { rewrite !js_or_found by eauto using extract_truthy. done. }
  rewrite js_or_string_at.
  destruct (extract err (0, "message")) as [s5|] eqn:E5; [done|].
  by destruct err.
Qed.

(** C6 (as amended): [handleError] resolves its message by the first rule
    that finds a non-empty string, in this order: the direct [errorMsg],
    the [errorMsg] one level down, the [message] one level down, the
    [message] two levels down, the direct [message]; failing all, the
    input itself when it is a string, and otherwise the fixed text with
    its full stop. It never throws and always yields a string. In
    particular the doubly nested message ["X"] is found, and the empty
    object yields the fixed text. *)
Theorem error_message_first_match (err : JsVal) :
  error_msg err =
    Normal (JStr (resolve handleError_rules "Call ended unexpectedly." err))
  ∧ error_msg (JObj [("error", JObj [("error", JObj [("message", JStr "X")])])])
    = Normal (JStr "X")
  ∧ error_msg (JObj []) = Normal (JStr "Call ended unexpectedly.").
Proof. split; [apply error_msg_resolves|split; reflexivity]. Qed.

(** ** What the channel's handlers leave alone *)

Lemma same_outside_refl w : same_outside w w.
Proof. by repeat split. Qed.

Lemma same_outside_trans w1 w2 w3 :
  same_outside w1 w2 → same_outside w2 w3 → same_outside w1 w3.
Proof.
  unfold same_outside. intros (?&?&?&?&?&?&?&?) (?&?&?&?&?&?&?&?).
  repeat split; congruence.
Qed.

Lemma handleMessage_outside msg w :
  same_outside w (exec (handleMessage msg) w).
Proof.
  unfold exec, handleMessage, lift, mbind, M_bind.
  destruct (transcript_guard msg) as [c|]; [|apply same_outside_refl].
  destruct (truthy c); [|apply same_outside_refl].
  destruct (get msg "role") as [[]|]; try apply same_outside_refl;
    destruct (get msg "transcriptType") as [[]|]; try apply same_outside_refl;
    destruct (get msg "transcript") as [[]|]; try apply same_outside_refl.
  destruct (String.eqb _ "partial"); [by repeat split|].
  destruct (String.eqb _ "final"); by repeat split.
Qed.

Lemma handleError_outside err w :
  same_outside w (exec (handleError err) w).
Proof.
  unfold exec, handleError, lift, mbind, M_bind.
  rewrite error_msg_resolves. by repeat split.
Qed.

Lemma invoke_outside l payload w :
  same_outside w (exec (invoke l payload) w).
Proof.
  unfold invoke. destruct (fn l);
    auto using handleMessage_outside, handleError_outside;
    by repeat split.
Qed.

Lemma exec_bind {A B} (m : M A) (f : A → M B) w :
  exec (m ≫= f) w =
    match m w with
    | (Normal a, w') => exec (f a) w'
    | (Throw _, w') => w'
    end.
Proof. unfold exec, mbind, M_bind. by destruct (m w) as [[a|e] w']. Qed.

Lemma invoke_all_outside ls payload w :
  same_outside w (exec (invoke_all ls payload) w).
Proof.
  revert w. induction ls as [|l ls IH]; intros w; [apply same_outside_refl|].
  simpl. rewrite exec_bind.
  pose proof (invoke_outside l payload w) as Hl. unfold exec in Hl.
  destruct (invoke l payload w) as [[[]|e] w']; simpl in Hl; [|done].
  eapply same_outside_trans; [exact Hl|apply IH].
Qed.

Lemma emit_unfold v ev payload w :
  emit v ev payload w =
    match listeners_for ev (from_option listeners [] (channels w !! v)) with
    | [] => if String.eqb ev "error"
            then (Throw (unhandled_error payload), w)
            else (Normal tt, w)
    | ls => invoke_all ls payload w
    end.
Proof.
  unfold emit, mbind, M_bind, reads; simpl.
  destruct (listeners_for _ _); [|done]. by destruct (String.eqb ev "error").
Qed.

Lemma emit_outside v ev payload w :
  same_outside w (exec (emit v ev payload) w).
Proof.
  unfold exec. rewrite emit_unfold.
  destruct (listeners_for _ _) as [|l ls].
  - destruct (String.eqb ev "error"); apply same_outside_refl.
  - apply invoke_all_outside.
Qed.

(** What [handleError] does, for every payload and every state. *)
Lemma handleError_effect err w :
  handleError err w =
    (Normal tt,
     with_toasts (toasts w ++
       [{| level := toast_error;
           body := JStr (resolve handleError_rules
                           "Call ended unexpectedly." err) |}])
       (with_page (λ c,
          {| sessionDetail := sessionDetail c; callStarted := false;
             vapiInstance := None; currentRole := None;
             liveTranscript := ""; messages := messages c;
             loading := false; vapiHandlersRef := None |}) w)).
Proof.
  unfold handleError, lift, mbind, M_bind.
  by rewrite error_msg_resolves.
Qed.

(** ** Identifiers in the log *)

Lemma handleMessage_ids_drawn msg w :
  ids_drawn w → ids_drawn (exec (handleMessage msg) w).
Proof.
  intros Hdrawn.
  destruct (transcript_guard_total msg) as [c Hc].
  destruct (truthy c) eqn:Htruthy.
  - destruct (transcript_guard_event _ _ Hc Htruthy)
      as (kind & who & said & Hev).
    unfold exec. rewrite (handleMessage_event _ _ _ _ _ Hev).
    destruct (String.eqb kind "partial"); [exact Hdrawn|].
    destruct (String.eqb kind "final"); [|exact Hdrawn].
    intros m Hm. simpl in *. apply elem_of_app in Hm as [Hm|Hm].
    + destruct (Hdrawn m Hm) as (i & Hi & Hgen). exists i. split; [lia|done].
    + apply list_elem_of_singleton in Hm as ->. simpl.
      exists (uuidDraws w). split; [lia|done].
  - unfold exec, handleMessage, lift, mbind, M_bind. by rewrite Hc, Htruthy.
Qed.

Lemma invoke_ids_drawn l payload w :
  ids_drawn w → ids_drawn (exec (invoke l payload) w).
Proof.
  intros Hdrawn. unfold invoke.
  destruct (fn l); try exact Hdrawn.
  - by apply handleMessage_ids_drawn.
  - unfold exec. by rewrite handleError_effect.
Qed.

Lemma invoke_all_ids_drawn ls payload w :
  ids_drawn w → ids_drawn (exec (invoke_all ls payload) w).
Proof.
  revert w. induction ls as [|l ls IH]; intros w Hdrawn; [done|].
  simpl. rewrite exec_bind.
  pose proof (invoke_ids_drawn l payload w Hdrawn) as Hl. unfold exec in Hl.
  destruct (invoke l payload w) as [[[]|e] w']; simpl in Hl; [|done].
  by apply IH.
Qed.

Lemma StartCall_ids_drawn r w :
  ids_drawn w → ids_drawn (exec (StartCall r) w).
Proof.
  intros Hdrawn. unfold exec, StartCall. destruct (sessionDetail r); [|done].
  unfold mbind, M_bind, reads; simpl.
  destruct (absent (NEXT_PUBLIC_VAPI_API_KEY w)); [done|]. simpl.
  by destruct (absent (NEXT_PUBLIC_VAPI_ASSISTANT_ID w)).
Qed.

Lemma endCall_settled_ids_drawn k res stop_throws w :
  ids_drawn w → ids_drawn (exec (endCall_settled k res stop_throws) w).
Proof.
  intros Hdrawn.
  destruct k as [v|], res as [data|reason], stop_throws; try exact Hdrawn;
    unfold exec, endCall_settled, try_catch, mbind, M_bind, reads; simpl;
    by destruct (vapiHandlersRef (page w)).
Qed.

Lemma step_ids_drawn w a : ids_drawn w → ids_drawn (step w a).
Proof.
  intros Hdrawn. unfold step.
  destruct a as [d| | |i res b|v ev payload| |]; simpl; try exact Hdrawn.
  - by apply StartCall_ids_drawn.
  - unfold settle. rewrite exec_bind. simpl.
    destruct (awaiting w !! i) as [k|]; [|done].
    rewrite exec_bind. simpl. by apply endCall_settled_ids_drawn.
  - unfold exec. rewrite emit_unfold.
    destruct (listeners_for _ _) as [|l ls].
    + by destruct (String.eqb ev "error").
    + by apply invoke_all_ids_drawn.
  - unfold click_start. rewrite exec_bind. simpl.
    destruct (start_enabled (page w)); [|done]. by apply StartCall_ids_drawn.
  - unfold click_disconnect. rewrite exec_bind. simpl.
    by destruct (disconnect_enabled (page w)).
Qed.

(** In every state the page can reach, each id in the log is a value the
    generator returned. *)
Lemma reachable_ids_drawn apiKey assistantId sid uuid tr :
  ids_drawn (run (mount apiKey assistantId sid uuid) tr).
Proof.
  assert (Hmount : ids_drawn (mount apiKey assistantId sid uuid))
    by (intros m Hm; by apply elem_of_nil in Hm).
  revert Hmount. generalize (mount apiKey assistantId sid uuid).
  induction tr as [|a tr IH]; intros w Hw; [done|].
  simpl. apply IH. by apply step_ids_drawn.
Qed.

(** ** Report submissions along a run *)

Lemma StartCall_posts r w : posts (exec (StartCall r) w) = posts w.
Proof.
  unfold exec, StartCall. destruct (sessionDetail r); [|done].
  unfold mbind, M_bind, reads; simpl.
  destruct (absent (NEXT_PUBLIC_VAPI_API_KEY w)); [done|]. simpl.
  by destruct (absent (NEXT_PUBLIC_VAPI_ASSISTANT_ID w)).
Qed.

Lemma endCall_settled_posts k res stop_throws w :
  posts (exec (endCall_settled k res stop_throws) w) = posts w.
Proof.
  destruct k as [v|], res as [data|reason], stop_throws; try reflexivity;
    unfold exec, endCall_settled, try_catch, mbind, M_bind, reads; simpl;
    by destruct (vapiHandlersRef (page w)).
Qed.

Lemma step_posts w a :
  posts (step w a) =
    posts w ++ (if invokes_endCall w a then [report_of w] else []).
Proof.
  unfold step. destruct a as [d| | |i res b|v ev payload| |]; simpl;
    rewrite ?app_nil_r; try reflexivity.
  - apply StartCall_posts.
  - unfold settle. rewrite exec_bind. simpl.
    destruct (awaiting w !! i) as [k|]; [|done].
    rewrite exec_bind. simpl. by rewrite endCall_settled_posts.
  - apply emit_outside.
  - unfold click_start. rewrite exec_bind. simpl.
    destruct (start_enabled (page w)); [|done]. apply StartCall_posts.
  - unfold click_disconnect. rewrite exec_bind. simpl.
    destruct (disconnect_enabled (page w)); [done|]. by rewrite app_nil_r.
Qed.

(** C1 (as amended): the report is submitted once for each run of
    [endCall] and by nothing else. Along any run of the page the list of
    submitted reports grows by exactly the reports of the [endCall] runs
    in it, each built from the log at the moment [endCall] is run; no
    channel event (call-end, error or any other), no settlement and no
    start adds one. So a call that is stopped once has exactly one
    submission whether or not the channel also reports call-end, and a
    call that only the channel ends has none. *)
Theorem report_submitted_once_per_stop (w : World) (tr : list Action) :
  posts (run w tr) = posts w ++ submissions w tr
  ∧ length (submissions w tr) = stop_calls w tr.
Proof.
  revert w. induction tr as [|a tr IH]; intros w; simpl.
  - by rewrite app_nil_r.
  - destruct (IH (step w a)) as [Hposts Hcount].
    unfold run in *. rewrite Hposts, step_posts, length_app, Hcount.
    split; [by rewrite app_assoc|]. by destruct (invokes_endCall w a).
Qed.

(** ** Start and stop through the buttons *)

Lemma alter_last {A} (f : A → A) (l : list A) (x : A) :
  alter f (length l) (l ++ [x]) = l ++ [f x].
Proof.
  rewrite alter_app_r_alt by done. by rewrite Nat.sub_diag.
Qed.

Lemma click_start_blocked w :
  callStarted (page w) = true ∨ loading (page w) = true →
  click_start w = (Normal tt, w).
Proof.
  intros H. unfold click_start, start_enabled, mbind, M_bind, reads.
  destruct H as [-> | ->]; by rewrite ?andb_false_r.
Qed.



(** ** Stop *)

Lemma off_table_last ev l table :
  off_table ev l (table ++ [(ev, l)]) = table.
Proof.
  unfold off_table. rewrite rev_app_distr. simpl.
  rewrite String.eqb_refl, bool_decide_eq_true_2 by done. simpl.
  apply rev_involutive.
Qed.

Lemma off_table_other ev l ev' l' table :
  String.eqb ev ev' = false →
  off_table ev l (table ++ [(ev', l')]) = off_table ev l table ++ [(ev', l')].
Proof.
  intros Hne. unfold off_table. rewrite rev_app_distr. simpl.
  by rewrite Hne.
Qed.

(** The six [off] calls of [endCall] empty the table the six [on] calls
    of [StartCall] built. *)
Lemma off_all_registered v :
  let hs := handlers_of v in
  off_table "error" (error hs)
    (off_table "speech-end" (speechEnd hs)
       (off_table "speech-start" (speechStart hs)
          (off_table "message" (message hs)
             (off_table "call-end" (callEnd hs)
                (off_table "call-start" (callStart hs)
                   (registered_by v)))))) = [].
Proof.
  simpl.
  change (registered_by v) with
    ([] ++ [("call-start", callStart (handlers_of v))]
        ++ [("call-end", callEnd (handlers_of v))]
        ++ [("message", message (handlers_of v))]
        ++ [("speech-start", speechStart (handlers_of v))]
        ++ [("speech-end", speechEnd (handlers_of v))]
        ++ [("error", error (handlers_of v))]).
  rewrite !app_assoc.
  rewrite 5!off_table_other, off_table_last by done.
  rewrite 4!off_table_other, off_table_last by done.
  rewrite 3!off_table_other, off_table_last by done.
  rewrite 2!off_table_other, off_table_last by done.
  rewrite off_table_other, off_table_last by done.
  apply (off_table_last _ _ []).
Qed.

(** The two halves of [endCall] around its awaited report, for a live
    channel whose six listeners are the ones in the handler ref. The
    first half posts the report and touches no channel. When the report
    is rejected the second half rejects with that failure and changes
    nothing; when it is answered the second half stops the channel (an
    exception from [stop] is swallowed), removes the six listeners,
    resets the page to idle, clears the ref, shows the success toast and
    redirects to the dashboard. *)
Theorem stop_teardown_follows_successful_report (w : World) (v : nat)
    (c : Vapi) (stop_throws : bool) (reason data : JsVal) :
  channels w !! v = Some c →
  listeners c = registered_by v →
  vapiHandlersRef (page w) = Some (handlers_of v) →
  (∀ r, ∃ w0, endCall_request r w = (Normal tt, w0)
              ∧ posts w0 = posts w ++
                  [{| rq_messages := messages r;
                      rq_sessionDetail := sessionDetail r;
                      rq_sessionId := sessionId w |}]
              ∧ channels w0 = channels w ∧ loading (page w0) = true
              ∧ awaiting w0 = awaiting w ++ [vapiInstance r])
  ∧ endCall_settled (Some v) (Rejected reason) stop_throws w
    = (Throw reason, w)
  ∧ ∃ w', endCall_settled (Some v) (Resolved data) stop_throws w
          = (Normal tt, w')
          ∧ idle (page w') = true
          ∧ vapiHandlersRef (page w') = None
          ∧ listeners <$> channels w' !! v = Some []
          ∧ stopped <$> channels w' !! v
            = Some (negb stop_throws || stopped c)
          ∧ toasts w' = toasts w ++
              [{| level := toast_success;
                  body := JStr "Your report is generated!" |}]
          ∧ routed w' = routed w ++ ["/dashboard"]
          ∧ posts w' = posts w.
Proof.
  intros Hc Hl Href. split; [|split].
  - intros r. eexists. split; [reflexivity|]. by repeat split.
  - reflexivity.
  - destruct w as [[sd cs vi cr lt ms ld ref] key aid sid gen n chans ps ts rs ks].
    simpl in *. subst ref.
    pose proof (off_all_registered v) as Hoff. simpl in Hoff.
    unfold endCall_settled, try_catch, mbind, M_bind, reads.
    destruct stop_throws; simpl;
      eexists; (split; [reflexivity|]); simpl;
      rewrite !list_lookup_alter_eq, Hc; simpl;
      rewrite Hl, Hoff; by repeat split.
Qed.

(** ** The consultation, checked *)

Lemma transcript_message_event kind who said :
  transcript_event kind who said (transcript_message kind who said).
Proof. eexists. by repeat split. Qed.

(** The consultation of the specification: two final utterances, then
    Disconnect; the report is posted once, with the two entries in order,
    and once it is answered the page is idle. A call-end event that the
    channel sends while the report is awaited does not add a second one. *)
Example consultation_reports_once :
  let w := run demo_talking
    [Emit 0 "message" (transcript_message "final" "assistant" "How long?");
     ClickDisconnect;
     Emit 0 "call-end" JUndefined;
     PostSettles 0 (Resolved JNull) false] in
  (rq_messages <$> posts w)
  = [[{| id := "0"; role := "user"; text := "I have a headache" |};
      {| id := "1"; role := "assistant"; text := "How long?" |}]]
  ∧ idle (page w) = true
  ∧ routed w = ["/dashboard"].
Proof. vm_compute. by repeat split. Qed.

(** C1, the claim as stated fails: a call that becomes active, logs one
    utterance and is ended by the channel's call-end event is back in the
    idle state with no report submitted. *)
Lemma channel_hangup_submits_no_report :
  callStarted (page demo_talking) = true
  ∧ length (messages (page demo_talking)) = 1
  ∧ idle (page (step demo_talking (Emit 0 "call-end" JUndefined))) = true
  ∧ length (posts (step demo_talking (Emit 0 "call-end" JUndefined))) ≠ 1.
Proof. vm_compute. repeat split; discriminate. Qed.


(** C3, the code at an error event received while the call is active:
    the message is normalized and shown, the page is reset to idle, the
    handler ref is cleared and nothing is posted, but no [off] is called:
    the six listeners are still registered on the channel, and a
    transcript message the channel delivers afterwards is still logged. *)
Lemma error_event_leaves_listeners_registered :
  callStarted (page demo_active) = true
  ∧ idle (page (step demo_active
       (Emit 0 "error" (JObj [("message", JStr "Meeting has ended")]))))
    = true
  ∧ vapiHandlersRef (page (step demo_active
       (Emit 0 "error" (JObj [("message", JStr "Meeting has ended")]))))
    = None
  ∧ toasts (step demo_active
       (Emit 0 "error" (JObj [("message", JStr "Meeting has ended")])))
    = [{| level := toast_error; body := JStr "Meeting has ended" |}]
  ∧ posts (step demo_active
       (Emit 0 "error" (JObj [("message", JStr "Meeting has ended")])))
    = []
  ∧ listeners <$> channels (step demo_active
       (Emit 0 "error" (JObj [("message", JStr "Meeting has ended")])))
    = [registered_by 0]
  ∧ length (messages (page (run demo_active
       [Emit 0 "error" (JObj [("message", JStr "Meeting has ended")]);
        Emit 0 "message" (transcript_message "final" "assistant" "Hello?")])))
    = 1.
Proof. vm_compute. by repeat split. Qed.

(** C4, the code at a report that fails: Disconnect is clicked on the
    active call and the awaited POST is rejected. The report was posted,
    but the page does not return to idle and shows no notification: the
    call is still flagged as started, the loading flag stays set, so
    that neither Disconnect nor Start responds any more, the channel was
    not stopped and its six listeners are still registered. *)
Lemma failed_report_leaves_call_open :
  let w := run demo_active
    [ClickDisconnect;
     PostSettles 0 (Rejected (JObj [("message", JStr "Network Error")])) false]
  in
  length (posts w) = 1
  ∧ idle (page w) = false
  ∧ callStarted (page w) = true
  ∧ loading (page w) = true
  ∧ toasts w = []
  ∧ stopped <$> channels w = [false]
  ∧ listeners <$> channels w = [registered_by 0]
  ∧ disconnect_enabled (page w) = false
  ∧ start_enabled (page w) = false.
Proof. vm_compute. by repeat split. Qed.

(** C6, the claim as stated fails: with both a direct message and a
    message under [error], the specified order picks the direct one but
    [handleError] shows the nested one. *)
Lemma nested_message_wins_over_direct :
  let e := JObj [("message", JStr "A");
                 ("error", JObj [("message", JStr "B")])] in
  specified_message e = "A"
  ∧ error_msg e = Normal (JStr "B")
  ∧ error_msg e ≠ Normal (JStr (specified_message e)).
Proof. vm_compute. repeat split. discriminate. Qed.

Lemma demo_talking_ids_drawn : ids_drawn demo_talking.
Proof.
  intros m Hm.
  change (messages (page demo_talking)) with
    [{| id := "0"; role := "user"; text := "I have a headache" |}] in Hm.
  apply list_elem_of_singleton in Hm as ->.
  exists 0. split; [vm_compute; lia|reflexivity].
Qed.

Lemma demo_talking_next_uuid_fresh : next_uuid_fresh demo_talking.
Proof.
  intros i Hi. change (uuidDraws demo_talking) with 1 in *.
  assert (i = 0) as -> by lia. vm_compute. discriminate.
Qed.

Lemma final_event_appends_one_entry_witness :
  transcript_event "final" "assistant" "How long?"
    (transcript_message "final" "assistant" "How long?")
  ∧ ids_drawn demo_talking
  ∧ next_uuid_fresh demo_talking
  ∧ ∃ w' entry,
      handleMessage (transcript_message "final" "assistant" "How long?")
        demo_talking = (Normal tt, w')
      ∧ messages (page w') = messages (page demo_talking) ++ [entry]
      ∧ length (messages (page w')) = S (length (messages (page demo_talking)))
      ∧ role entry = "assistant" ∧ text entry = "How long?"
      ∧ id entry = randomUUID demo_talking (uuidDraws demo_talking)
      ∧ (id entry ∉ id <$> messages (page demo_talking))
      ∧ liveTranscript (page w') = ""
      ∧ currentRole (page w') = None
      ∧ ids_drawn w'.
Proof.
  split; [apply transcript_message_event|].
  split; [apply demo_talking_ids_drawn|].
  split; [apply demo_talking_next_uuid_fresh|].
  apply (final_event_appends_one_entry demo_talking
           (transcript_message "final" "assistant" "How long?")
           "assistant" "How long?").
  - apply transcript_message_event.
  - apply demo_talking_ids_drawn.
  - apply demo_talking_next_uuid_fresh.
Defined.

Lemma partial_events_replace_in_progress_witness :
  Forall (λ m, ∃ r t, transcript_event "partial" r t m)
    [transcript_message "partial" "user" "I have";
     transcript_message "partial" "user" "I have a head"]
  ∧ transcript_event "partial" "assistant" "How"
      (transcript_message "partial" "assistant" "How")
  ∧ currentRole (page (deliver demo_talking
      ([transcript_message "partial" "user" "I have";
        transcript_message "partial" "user" "I have a head"]
       ++ [transcript_message "partial" "assistant" "How"])))
    = Some "assistant"
  ∧ liveTranscript (page (deliver demo_talking
      ([transcript_message "partial" "user" "I have";
        transcript_message "partial" "user" "I have a head"]
       ++ [transcript_message "partial" "assistant" "How"])))
    = "How"
  ∧ messages (page (deliver demo_talking
      ([transcript_message "partial" "user" "I have";
        transcript_message "partial" "user" "I have a head"]
       ++ [transcript_message "partial" "assistant" "How"])))
    = messages (page demo_talking).
Proof.
  assert (Hearlier : Forall (λ m, ∃ r t, transcript_event "partial" r t m)
            [transcript_message "partial" "user" "I have";
             transcript_message "partial" "user" "I have a head"]).
  { repeat constructor; eexists _, _; apply transcript_message_event. }
  split; [exact Hearlier|].
  split; [apply transcript_message_event|].
  apply (partial_events_replace_in_progress demo_talking _ _ _ _ Hearlier).
  apply transcript_message_event.
Defined.

Lemma malformed_message_is_ignored_witness :
  malformed (JObj [("type", JStr "transcript"); ("role", JNum 7);
                   ("transcriptType", JStr "final")])
  ∧ handleMessage (JObj [("type", JStr "transcript"); ("role", JNum 7);
                         ("transcriptType", JStr "final")]) demo_talking
    = (Normal tt, demo_talking).
Proof.
  assert (Hbad : malformed (JObj [("type", JStr "transcript");
                                  ("role", JNum 7);
                                  ("transcriptType", JStr "final")])).
  { intros (kind & who & said & fs & Heq & _ & Hrole & _).
    injection Heq as <-. simpl in Hrole. discriminate. }
  split; [exact Hbad|].
  apply (malformed_message_is_ignored demo_talking _ Hbad).
Defined.

Lemma StartCall_without_api_key_witness :
  sessionDetail (page demo_no_key) = Some demo_session
  ∧ absent (NEXT_PUBLIC_VAPI_API_KEY demo_no_key) = true
  ∧ idle (page demo_no_key) = true
  ∧ StartCall (page demo_no_key) demo_no_key =
      (Normal tt,
       with_toasts (toasts demo_no_key ++
         [{| level := toast_error;
             body := JStr "Missing NEXT_PUBLIC_VAPI_API_KEY" |}]) demo_no_key).
Proof.
  split; [reflexivity|]. split; [reflexivity|]. split; [reflexivity|].
  apply (StartCall_without_api_key demo_no_key demo_session); reflexivity.
Defined.


Lemma stop_teardown_follows_successful_report_witness :
  channels demo_active !! 0 = Some demo_channel
  ∧ listeners demo_channel = registered_by 0
  ∧ vapiHandlersRef (page demo_active) = Some (handlers_of 0)
  ∧ endCall_settled (Some 0) (Rejected (JStr "Network Error")) false
      demo_active
    = (Throw (JStr "Network Error"), demo_active)
  ∧ ∃ w', endCall_settled (Some 0) (Resolved JNull) false demo_active
          = (Normal tt, w')
          ∧ idle (page w') = true
          ∧ listeners <$> channels w' !! 0 = Some []
          ∧ stopped <$> channels w' !! 0 = Some true.
Proof.
  split; [reflexivity|]. split; [reflexivity|]. split; [reflexivity|].
  destruct (stop_teardown_follows_successful_report demo_active 0
              demo_channel false (JStr "Network Error") JNull
              eq_refl eq_refl eq_refl)
    as (_ & Hrejected & w' & Hsettled & Hidle & _ & Hoff & Hstopped & _).
  split; [exact Hrejected|].
  exists w'. by repeat split.
Defined.

(** * Further properties of the page *)

(** ** The log along a run *)

Lemma log_grew_refl w : log_grew w w.
Proof.
  split; [done|]. exists []. rewrite app_nil_r. simpl.
  by rewrite Nat.add_0_r.
Qed.

Lemma log_grew_same w w' :
  randomUUID w' = randomUUID w →
  messages (page w') = messages (page w) →
  uuidDraws w' = uuidDraws w →
  log_grew w w'.
Proof.
  intros Hgen Hlog Hdraws. split; [done|]. exists [].
  rewrite app_nil_r. simpl. by rewrite Nat.add_0_r.
Qed.

Lemma log_grew_trans w1 w2 w3 :
  log_grew w1 w2 → log_grew w2 w3 → log_grew w1 w3.
Proof.
  intros (Hgen1 & a1 & Hlog1 & Hd1 & Hid1) (Hgen2 & a2 & Hlog2 & Hd2 & Hid2).
  split; [congruence|]. exists (a1 ++ a2).
  rewrite Hlog2, Hlog1, Hd2, Hd1, length_app, fmap_app, seq_app, fmap_app.
  repeat split; [by rewrite app_assoc|lia|].
  rewrite Hid1, Hid2, Hgen1, Hd1. done.
Qed.

Lemma handleMessage_returns msg w :
  ∃ w', handleMessage msg w = (Normal tt, w') ∧ log_grew w w'.
Proof.
  destruct (transcript_guard_total msg) as [c Hc].
  destruct (truthy c) eqn:Htruthy.
  - destruct (transcript_guard_event _ _ Hc Htruthy)
      as (kind & who & said & Hev).
    rewrite (handleMessage_event _ _ _ _ _ Hev).
    destruct (String.eqb kind "partial");
      [eexists; split; [reflexivity|by apply log_grew_same]|].
    destruct (String.eqb kind "final");
      [|eexists; split; [reflexivity|apply log_grew_refl]].
    eexists; split; [reflexivity|]. split; [done|].
    exists [{| id := randomUUID w (uuidDraws w); role := who; text := said |}].
    simpl. repeat split. lia.
  - exists w. split; [|apply log_grew_refl].
    unfold handleMessage, lift, mbind, M_bind. by rewrite Hc, Htruthy.
Qed.

Lemma invoke_returns l payload w :
  ∃ w', invoke l payload w = (Normal tt, w') ∧ log_grew w w'.
Proof.
  unfold invoke. destruct (fn l);
    try (eexists; split; [reflexivity|by apply log_grew_same]).
  - apply handleMessage_returns.
  - rewrite handleError_effect.
    eexists; split; [reflexivity|by apply log_grew_same].
Qed.

Lemma invoke_all_returns ls payload w :
  ∃ w', invoke_all ls payload w = (Normal tt, w') ∧ log_grew w w'.
Proof.
  revert w. induction ls as [|l ls IH]; intros w.
  - exists w. split; [done|apply log_grew_refl].
  - destruct (invoke_returns l payload w) as (w1 & Hl & Hg1).
    destruct (IH w1) as (w2 & Hls & Hg2).
    exists w2. split; [|by eapply log_grew_trans].
    simpl. unfold mbind, M_bind. by rewrite Hl.
Qed.

Lemma emit_log_grew v ev payload w : log_grew w (exec (emit v ev payload) w).
Proof.
  unfold exec. rewrite emit_unfold.
  destruct (listeners_for _ _) as [|l ls].
  - destruct (String.eqb ev "error"); apply log_grew_refl.
  - destruct (invoke_all_returns (l :: ls) payload w) as (w' & Hret & Hg).
    by rewrite Hret.
Qed.

Lemma StartCall_log_grew r w : log_grew w (exec (StartCall r) w).
Proof.
  unfold exec, StartCall. destruct (sessionDetail r); [|apply log_grew_refl].
  unfold mbind, M_bind, reads; simpl.
  destruct (absent (NEXT_PUBLIC_VAPI_API_KEY w)); [by apply log_grew_same|].
  simpl. destruct (absent (NEXT_PUBLIC_VAPI_ASSISTANT_ID w));
    by apply log_grew_same.
Qed.

Lemma endCall_settled_log_grew k res stop_throws w :
  log_grew w (exec (endCall_settled k res stop_throws) w).
Proof.
  destruct k as [v|], res as [data|reason], stop_throws;
    try (by apply log_grew_same);
    unfold exec, endCall_settled, try_catch, mbind, M_bind, reads; simpl;
    destruct (vapiHandlersRef (page w)); by apply log_grew_same.
Qed.

Lemma step_log_grew w a : log_grew w (step w a).
Proof.
  unfold step.
  destruct a as [d| | |i res b|v ev payload| |]; simpl;
    try (by apply log_grew_same).
  - apply StartCall_log_grew.
  - unfold settle. rewrite exec_bind. simpl.
    destruct (awaiting w !! i) as [k|]; [|apply log_grew_refl].
    rewrite exec_bind. simpl.
    eapply log_grew_trans; [|apply endCall_settled_log_grew].
    by apply log_grew_same.
  - apply emit_log_grew.
  - unfold click_start. rewrite exec_bind. simpl.
    destruct (start_enabled (page w)); [|apply log_grew_refl].
    apply StartCall_log_grew.
  - unfold click_disconnect. rewrite exec_bind. simpl.
    destruct (disconnect_enabled (page w));
      [by apply log_grew_same|apply log_grew_refl].
Qed.

Lemma run_log_grew w tr : log_grew w (run w tr).
Proof.
  revert w. induction tr as [|a tr IH]; intros w; [apply log_grew_refl|].
  simpl. eapply log_grew_trans; [apply step_log_grew|apply IH].
Qed.

(** X1: the log of finalized messages is append-only. Whatever the page
    goes through (starts, stops, settled reports, clicks, channel events
    of any name and payload) the log it had is a prefix of the log it
    has afterwards: no entry is ever edited, reordered or removed, also
    not between two calls. *)
Theorem log_is_append_only (w : World) (tr : list Action) :
  messages (page w) `prefix_of` messages (page (run w tr)).
Proof.
  destruct (run_log_grew w tr) as (_ & added & Hlog & _).
  exists added. exact Hlog.
Qed.

(** X2: every report submitted along a run carries at least the log the
    run started with, in order and at the front. In particular the
    report of a later consultation on the same page includes the
    utterances of the earlier ones. *)
Theorem reports_carry_the_earlier_log (w : World) (tr : list Action) :
  Forall (λ rq, messages (page w) `prefix_of` rq_messages rq)
    (submissions w tr).
Proof.
  revert w. induction tr as [|a tr IH]; intros w; simpl; [constructor|].
  apply Forall_app. split.
  - destruct (invokes_endCall w a); [|constructor].
    constructor; [|constructor]. simpl. reflexivity.
  - eapply Forall_impl; [apply IH|]. intros rq Hrq. simpl in Hrq.
    etrans; [|exact Hrq].
    destruct (step_log_grew w a) as (_ & added & Hlog & _).
    exists added. exact Hlog.
Qed.

(** X3: when [crypto.randomUUID()] never returns the same value twice,
    the ids in the log are pairwise distinct in every state the page can
    reach from its first render, and so are the React keys of the
    messages on screen. *)
Theorem log_ids_are_distinct (apiKey assistantId : option string)
    (sid : string) (uuid : nat → string) (tr : list Action) :
  Inj (=) (=) uuid →
  NoDup (id <$> messages (page (run (mount apiKey assistantId sid uuid) tr)))
  ∧ NoDup (id <$> slice_last 4
             (messages (page (run (mount apiKey assistantId sid uuid) tr)))).
Proof.
  intros Hinj.
  destruct (run_log_grew (mount apiKey assistantId sid uuid) tr)
    as (_ & added & Hlog & _ & Hids).
  simpl in Hlog, Hids. rewrite Hlog.
  assert (Hall : NoDup (id <$> added)).
  { rewrite Hids. apply NoDup_fmap_2; [done|]. apply NoDup_seq. }
  split; [exact Hall|].
  unfold slice_last. rewrite fmap_drop.
  eapply sublist_NoDup; [exact Hall|apply sublist_drop].
Qed.

(** X4: what a channel event can do. For every [Vapi] object, event name
    and payload, with whatever listeners are registered, [emit] posts no
    report, performs no redirect, resumes no suspended [endCall] and
    changes no listener table: it can only change the page state, the
    toasts and the count of identifiers drawn. No handler of the page
    throws: [emit] returns normally in every case but one, an ['error']
    event on an object with no listener for it (as after the [off] calls
    of [endCall]), which the emitter throws as unhandled, changing
    nothing. *)
Theorem channel_events_stay_inside (w : World) (v : nat) (ev : string)
    (payload : JsVal) :
  ∃ c w',
    emit v ev payload w = (c, w')
    ∧ same_outside w w'
    ∧ if decide (ev = "error"
                 ∧ listeners_for ev
                     (from_option listeners [] (channels w !! v)) = [])
      then c = Throw (unhandled_error payload) ∧ w' = w
      else c = Normal tt.
Proof.
  pose proof (emit_outside v ev payload w) as Hout. unfold exec in Hout.
  rewrite emit_unfold in *.
  destruct (listeners_for _ _) as [|l ls] eqn:Hls.
  - destruct (String.eqb ev "error") eqn:Hev.
    + apply String.eqb_eq in Hev.
      eexists _, _. split; [reflexivity|]. split; [exact Hout|].
      by rewrite decide_True.
    + apply String.eqb_neq in Hev.
      eexists _, _. split; [reflexivity|]. split; [exact Hout|].
      rewrite decide_False; [done|]. by intros [? _].
  - destruct (invoke_all_returns (l :: ls) payload w) as (w' & Hret & _).
    rewrite Hret in *.
    eexists _, _. split; [reflexivity|]. split; [exact Hout|].
    rewrite decide_False; [done|]. by intros [_ ?].
Qed.

(** ** Error messages and transcript kinds *)

Lemma first_match_nonempty rules e s :
  first_match rules e = Some s → s ≠ "".
Proof.
  induction rules as [|rule rules IH]; simpl; [discriminate|].
  destruct (extract e rule) as [s'|] eqn:Hx; [|exact IH].
  intros [= <-] ->. apply extract_truthy in Hx. discriminate.
Qed.

(** X5: the message [handleError] shows is empty in exactly one case:
    the error value is itself the empty string. Every other value, of
    any shape, yields a non-empty message. *)
Theorem error_message_empty_only_for_empty_string (err : JsVal) :
  error_msg err = Normal (JStr "") ↔ err = JStr "".
Proof.
  rewrite error_msg_resolves. unfold resolve. split.
  - destruct (first_match handleError_rules err) as [s|] eqn:Hm.
    + intros [= ->]. by apply first_match_nonempty in Hm.
    + destruct err; try discriminate. by intros [= ->].
  - intros ->. reflexivity.
Qed.

(** X6: a transcript message that is well formed but whose
    [transcriptType] is neither ['partial'] nor ['final'] is dropped:
    [handleMessage] returns normally and nothing changes. *)
Theorem other_transcript_kinds_are_ignored (w : World) (msg : JsVal)
    (kind who said : string) :
  transcript_event kind who said msg →
  kind ≠ "partial" → kind ≠ "final" →
  handleMessage msg w = (Normal tt, w).
Proof.
  intros Hev Hp Hf. rewrite (handleMessage_event _ _ _ _ _ Hev).
  apply String.eqb_neq in Hp, Hf. by rewrite Hp, Hf.
Qed.

Lemma other_transcript_kinds_are_ignored_witness :
  transcript_event "interim" "user" "I ha"
    (transcript_message "interim" "user" "I ha")
  ∧ "interim" ≠ "partial" ∧ "interim" ≠ "final"
  ∧ handleMessage (transcript_message "interim" "user" "I ha") demo_talking
    = (Normal tt, demo_talking).
Proof.
  split; [apply transcript_message_event|].
  split; [discriminate|]. split; [discriminate|].
  apply (other_transcript_kinds_are_ignored demo_talking _ "interim"
           "user" "I ha").
  - apply transcript_message_event.
  - discriminate.
  - discriminate.
Defined.

(** ** The screen *)

Lemma slice_last_suffix {A} n (l : list A) : slice_last n l `suffix_of` l.
Proof. apply suffix_drop. Qed.

Lemma slice_last_length {A} n (l : list A) :
  length (slice_last n l) = n `min` length l.
Proof. unfold slice_last. rewrite length_drop. lia. Qed.

Lemma slice_last_snoc {A} n (l : list A) (x : A) :
  last (slice_last (S n) (l ++ [x])) = Some x.
Proof.
  unfold slice_last. rewrite length_app. simpl.
  rewrite drop_app_le by lia. apply last_snoc.
Qed.

(** X7: with a session loaded, the transcript on screen is the tail of
    the log: a suffix of it, in the same order, of four messages, or of
    all of them while the log has fewer than four. *)
Theorem screen_shows_the_last_four (r : Component) (d : SessionDetail) :
  sessionDetail r = Some d →
  ∃ m, main (render r) = Some m
       ∧ shown m `suffix_of` messages r
       ∧ length (shown m) = 4 `min` length (messages r).
Proof.
  intros Hd. unfold render. rewrite Hd. eexists. split; [reflexivity|].
  cbn [shown]. split; [apply slice_last_suffix|apply slice_last_length].
Qed.

Lemma screen_shows_the_last_four_witness :
  sessionDetail (page demo_talking) = Some demo_session
  ∧ ∃ m, main (render (page demo_talking)) = Some m
         ∧ shown m `suffix_of` messages (page demo_talking)
         ∧ length (shown m) = 4 `min` length (messages (page demo_talking)).
Proof.
  split; [reflexivity|].
  apply (screen_shows_the_last_four (page demo_talking) demo_session).
  reflexivity.
Defined.

(** X8: once a well-formed [final] transcript message has been handled,
    the utterance is on screen as the last message shown, with the role
    and the text of the message, and the live line is gone. *)
Theorem final_event_is_shown_last (w : World) (d : SessionDetail)
    (msg : JsVal) (who said : string) :
  sessionDetail (page w) = Some d →
  transcript_event "final" who said msg →
  ∃ m entry,
    main (render (page (exec (handleMessage msg) w))) = Some m
    ∧ last (shown m) = Some entry
    ∧ role entry = who ∧ text entry = said
    ∧ live m = None.
Proof.
  intros Hd Hev. unfold exec.
  rewrite (handleMessage_event _ _ _ _ _ Hev). simpl.
  unfold render; simpl. rewrite Hd.
  eexists _, {| id := randomUUID w (uuidDraws w); role := who; text := said |}.
  split; [reflexivity|]. simpl. split; [apply slice_last_snoc|done].
Qed.

Lemma final_event_is_shown_last_witness :
  sessionDetail (page demo_talking) = Some demo_session
  ∧ transcript_event "final" "assistant" "How long?"
      (transcript_message "final" "assistant" "How long?")
  ∧ ∃ m entry,
      main (render (page (exec (handleMessage
        (transcript_message "final" "assistant" "How long?")) demo_talking)))
      = Some m
      ∧ last (shown m) = Some entry
      ∧ role entry = "assistant" ∧ text entry = "How long?"
      ∧ live m = None.
Proof.
  split; [reflexivity|]. split; [apply transcript_message_event|].
  apply (final_event_is_shown_last demo_talking demo_session).
  - reflexivity.
  - apply transcript_message_event.
Defined.

(** X9: after a well-formed [partial] transcript message the live line
    shows the role and the text of that message, unless the text is
    empty, in which case no live line is shown although the speaker has
    been recorded; the messages on screen are the ones shown before. *)
Theorem partial_event_live_line (w : World) (d : SessionDetail)
    (msg : JsVal) (who said : string) :
  sessionDetail (page w) = Some d →
  transcript_event "partial" who said msg →
  ∃ m m0,
    main (render (page (exec (handleMessage msg) w))) = Some m
    ∧ main (render (page w)) = Some m0
    ∧ live m = (if decide (said = "") then None else Some (Some who, said))
    ∧ currentRole (page (exec (handleMessage msg) w)) = Some who
    ∧ shown m = shown m0.
Proof.
  intros Hd Hev. unfold exec.
  rewrite (handleMessage_event _ _ _ _ _ Hev). simpl.
  unfold render; simpl. rewrite Hd.
  eexists _, _. split; [reflexivity|]. split; [reflexivity|]. simpl.
  repeat split.
  destruct (decide (said = "")) as [->|Hne]; [done|].
  apply String.eqb_neq in Hne. by rewrite Hne.
Qed.

Lemma partial_event_live_line_witness :
  sessionDetail (page demo_talking) = Some demo_session
  ∧ transcript_event "partial" "assistant" ""
      (transcript_message "partial" "assistant" "")
  ∧ ∃ m m0,
      main (render (page (exec (handleMessage
        (transcript_message "partial" "assistant" "")) demo_talking)))
      = Some m
      ∧ main (render (page demo_talking)) = Some m0
      ∧ live m = None
      ∧ currentRole (page (exec (handleMessage
          (transcript_message "partial" "assistant" "")) demo_talking))
        = Some "assistant"
      ∧ shown m = shown m0.
Proof.
  split; [reflexivity|]. split; [apply transcript_message_event|].
  apply (partial_event_live_line demo_talking demo_session
           (transcript_message "partial" "assistant" "") "assistant" "").
  - reflexivity.
  - apply transcript_message_event.
Defined.

(** X10: the speech events relabel the live line without touching its
    text: after a non-empty [partial] transcript of any speaker, a
    speech-start makes the line read as the assistant's and a speech-end
    as the user's. *)
Theorem speech_events_relabel_the_live_line (w : World) (d : SessionDetail)
    (msg : JsVal) (who said : string) :
  sessionDetail (page w) = Some d →
  transcript_event "partial" who said msg →
  said ≠ "" →
  (∃ m, main (render (page (exec handleSpeechStart
                              (exec (handleMessage msg) w)))) = Some m
        ∧ live m = Some (Some "assistant", said))
  ∧ (∃ m, main (render (page (exec handleSpeechEnd
                                (exec (handleMessage msg) w)))) = Some m
          ∧ live m = Some (Some "user", said)).
Proof.
  intros Hd Hev Hne. unfold exec.
  rewrite (handleMessage_event _ _ _ _ _ Hev). simpl.
  unfold render; simpl. rewrite Hd.
  apply String.eqb_neq in Hne. rewrite Hne. simpl.
  split; eexists; by split.
Qed.

Lemma speech_events_relabel_the_live_line_witness :
  sessionDetail (page demo_talking) = Some demo_session
  ∧ transcript_event "partial" "user" "Since"
      (transcript_message "partial" "user" "Since")
  ∧ "Since" ≠ ""
  ∧ (∃ m, main (render (page (exec handleSpeechStart
        (exec (handleMessage (transcript_message "partial" "user" "Since"))
           demo_talking)))) = Some m
        ∧ live m = Some (Some "assistant", "Since"))
  ∧ (∃ m, main (render (page (exec handleSpeechEnd
        (exec (handleMessage (transcript_message "partial" "user" "Since"))
           demo_talking)))) = Some m
        ∧ live m = Some (Some "user", "Since")).
Proof.
  split; [reflexivity|]. split; [apply transcript_message_event|].
  split; [discriminate|].
  apply (speech_events_relabel_the_live_line demo_talking demo_session
           (transcript_message "partial" "user" "Since") "user" "Since").
  - reflexivity.
  - apply transcript_message_event.
  - discriminate.
Defined.

(** ** Opening a channel *)

Lemma StartCall_exact r d w :
  sessionDetail r = Some d →
  absent (NEXT_PUBLIC_VAPI_API_KEY w) = false →
  StartCall r w = (Normal tt, opened d w).
Proof.
  intros Hd Hkey. unfold StartCall, opened, start_arg. rewrite Hd.
  destruct w as [[sd cs vi cr lt ms ld ref] key aid sid gen n chans ps ts rs ks].
  unfold mbind, M_bind, reads; simpl in *. rewrite Hkey; simpl.
  destruct (absent aid); simpl; rewrite !alter_last; simpl;
    unfold vapi_start, alter_channel, modify; simpl;
    by rewrite alter_last.
Qed.

(** X11: [StartCall] never touches a [Vapi] object that already exists:
    whatever the state it runs in, the objects built before are still
    there afterwards, unchanged (not stopped, their listeners still
    registered), and at most one new object follows them. It posts no
    report, performs no redirect and leaves the log alone. *)
Theorem StartCall_keeps_existing_channels (r : Component) (w : World) :
  ∃ new,
    channels (exec (StartCall r) w) = channels w ++ new
    ∧ length new ≤ 1
    ∧ posts (exec (StartCall r) w) = posts w
    ∧ routed (exec (StartCall r) w) = routed w
    ∧ messages (page (exec (StartCall r) w)) = messages (page w).
Proof.
  destruct (sessionDetail r) as [d|] eqn:Hd.
  - destruct (absent (NEXT_PUBLIC_VAPI_API_KEY w)) eqn:Hkey.
    + exists []. unfold exec, StartCall. rewrite Hd.
      unfold mbind, M_bind, reads; simpl. rewrite Hkey; simpl.
      rewrite app_nil_r. repeat split. lia.
    + unfold exec. rewrite (StartCall_exact r d w Hd Hkey).
      eexists [_]. simpl. by repeat split.
  - exists []. unfold exec, StartCall. rewrite Hd. simpl.
    rewrite app_nil_r. repeat split. lia.
Qed.

(** X12: how the new channel is started. With a session loaded and the
    API key present, [StartCall] starts the object it builds with the
    configured assistant id when there is a non-empty one, and otherwise
    with the inline configuration carrying the doctor's prompt and the
    doctor's voice, the voice being ['will'] when the doctor has none. *)
Theorem StartCall_start_argument (r : Component) (d : SessionDetail)
    (w : World) :
  sessionDetail r = Some d →
  absent (NEXT_PUBLIC_VAPI_API_KEY w) = false →
  started <$> channels (exec (StartCall r) w) !! length (channels w)
  = Some (Some
      match NEXT_PUBLIC_VAPI_ASSISTANT_ID w with
      | Some a => if decide (a = "")
                  then AgentConfig (default "will" (voiceId d)) (agentPrompt d)
                  else AssistantId a
      | None => AgentConfig (default "will" (voiceId d)) (agentPrompt d)
      end).
Proof.
  intros Hd Hkey. unfold exec. rewrite (StartCall_exact r d w Hd Hkey).
  simpl. rewrite list_lookup_middle by done. simpl.
  unfold start_arg, absent.
  destruct (NEXT_PUBLIC_VAPI_ASSISTANT_ID w) as [a|]; [|done].
  destruct (decide (a = "")) as [->|Hne]; [done|].
  apply String.eqb_neq in Hne. by rewrite Hne.
Qed.

Lemma StartCall_start_argument_witness :
  sessionDetail (page demo_ready) = Some demo_session
  ∧ absent (NEXT_PUBLIC_VAPI_API_KEY demo_ready) = false
  ∧ started <$> channels (exec (StartCall (page demo_ready)) demo_ready)
                !! length (channels demo_ready)
    = Some (Some (AgentConfig "will" (Some "You are a general physician."))).
Proof.
  split; [reflexivity|]. split; [reflexivity|].
  apply (StartCall_start_argument (page demo_ready) demo_session demo_ready);
    reflexivity.
Defined.

(** ** A whole call *)

Lemma step_click_start_opens w d :
  sessionDetail (page w) = Some d →
  callStarted (page w) = false → loading (page w) = false →
  absent (NEXT_PUBLIC_VAPI_API_KEY w) = false →
  step w ClickStart = opened d w.
Proof.
  intros Hd Hcs Hld Hkey. unfold step, exec; simpl.
  unfold click_start, start_enabled, mbind, M_bind, reads.
  rewrite Hd, Hcs, Hld; simpl. by rewrite (StartCall_exact _ d w Hd Hkey).
Qed.

Lemma emit_call_start w v c payload :
  channels w !! v = Some c → listeners c = registered_by v →
  emit v "call-start" payload w = handleCallStart w.
Proof.
  intros Hc Hl. unfold emit, mbind, M_bind, reads; simpl.
  rewrite Hc; simpl. rewrite Hl. reflexivity.
Qed.

Lemma emit_call_end w v c payload :
  channels w !! v = Some c → listeners c = registered_by v →
  emit v "call-end" payload w = handleCallEnd w.
Proof.
  intros Hc Hl. unfold emit, mbind, M_bind, reads; simpl.
  rewrite Hc; simpl. rewrite Hl. reflexivity.
Qed.

Lemma emit_error w v c payload :
  channels w !! v = Some c → listeners c = registered_by v →
  emit v "error" payload w = handleError payload w.
Proof.
  intros Hc Hl. unfold emit, mbind, M_bind, reads; simpl.
  rewrite Hc; simpl. rewrite Hl. simpl.
  unfold mbind, M_bind, invoke; simpl. by rewrite handleError_effect.
Qed.

Lemma step_click_disconnect w :
  disconnect_enabled (page w) = true →
  step w ClickDisconnect = exec (endCall_request (page w)) w.
Proof.
  intros Hen. unfold step, exec; simpl.
  unfold click_disconnect, mbind, M_bind, reads. by rewrite Hen.
Qed.

Lemma step_settle w i k res stop_throws :
  awaiting w !! i = Some k →
  step w (PostSettles i res stop_throws) =
    exec (endCall_settled k res stop_throws)
      (with_awaiting (delete i (awaiting w)) w).
Proof.
  intros Hk. unfold step, exec; simpl.
  unfold settle, mbind, M_bind, reads, modify. by rewrite Hk.
Qed.

(** What the second half of [endCall] does once the report is answered,
    for a channel whose six listeners are the ones in the ref. *)
Lemma endCall_settled_teardown w v c data stop_throws :
  channels w !! v = Some c →
  listeners c = registered_by v →
  vapiHandlersRef (page w) = Some (handlers_of v) →
  ∃ w', endCall_settled (Some v) (Resolved data) stop_throws w
        = (Normal tt, w')
        ∧ page w' = cleared_page (page w)
        ∧ channels w' =
            <[v := {| v_apiKey := v_apiKey c; listeners := [];
                      started := started c;
                      stopped := negb stop_throws || stopped c |}]>
              (channels w)
        ∧ posts w' = posts w
        ∧ toasts w' = toasts w ++
            [{| level := toast_success;
                body := JStr "Your report is generated!" |}]
        ∧ routed w' = routed w ++ ["/dashboard"]
        ∧ awaiting w' = awaiting w.
Proof.
  intros Hc Hl Href.
  destruct w as [[sd cs vi cr lt ms ld ref] key aid sid gen n chans ps ts rs ks].
  simpl in *. subst ref.
  pose proof (off_all_registered v) as Hoff. simpl in Hoff.
  unfold endCall_settled, try_catch, mbind, M_bind, reads.
  destruct stop_throws; simpl;
    (eexists; split; [reflexivity|]); simpl;
    (split; [reflexivity|]); (split; [|by repeat split]);
    apply list_eq; intros j; destruct (decide (j = v)) as [->|Hne].
  all: rewrite ?list_lookup_alter_eq, ?list_lookup_alter_ne by done.
  all: rewrite ?list_lookup_insert_eq, ?list_lookup_insert_ne
         by (done || by eapply lookup_lt_Some).
  all: try done.
  all: rewrite Hc; simpl; by rewrite Hl, Hoff.
Qed.

(** X13: a whole call leaves nothing behind on the channel. From the
    idle page with a session loaded, the key present and no report
    pending: Start, the channel's call-start, Disconnect and a report
    that is answered bring the page back to idle with the Start button
    enabled again; exactly one report was posted, carrying the log; the
    [Vapi] object opened for the call has no listener left (each of the
    six [on] calls was undone by its [off]); and the objects that existed
    before are as they were. This holds whether or not [vapi.stop()]
    throws. *)
Theorem start_then_stop_leaves_no_listener (w : World) (d : SessionDetail)
    (data : JsVal) (stop_throws : bool) :
  sessionDetail (page w) = Some d →
  idle (page w) = true →
  absent (NEXT_PUBLIC_VAPI_API_KEY w) = false →
  awaiting w = [] →
  ∃ w', run w [ClickStart;
               Emit (length (channels w)) "call-start" JUndefined;
               ClickDisconnect;
               PostSettles 0 (Resolved data) stop_throws] = w'
        ∧ idle (page w') = true
        ∧ start_enabled (page w') = true
        ∧ vapiHandlersRef (page w') = None
        ∧ listeners <$> channels w' !! length (channels w) = Some []
        ∧ take (length (channels w)) (channels w') = channels w
        ∧ length (channels w') = S (length (channels w))
        ∧ posts w' = posts w ++
            [{| rq_messages := messages (page w);
                rq_sessionDetail := Some d;
                rq_sessionId := sessionId w |}]
        ∧ routed w' = routed w ++ ["/dashboard"].
Proof.
  intros Hd Hidle Hkey Hawait.
  apply idle_inv in Hidle as (Hcs & Hvi & Hld).
  unfold run; cbn [foldl].
  rewrite (step_click_start_opens w d) by done.
  set (c1 := {| v_apiKey := default "" (NEXT_PUBLIC_VAPI_API_KEY w);
                listeners := registered_by (length (channels w));
                started := Some (start_arg w d); stopped := false |}).
  set (w1 := opened d w).
  assert (Hc1 : channels w1 !! length (channels w) = Some c1)
    by (by apply list_lookup_middle).
  assert (Hstep2 : step w1 (Emit (length (channels w)) "call-start" JUndefined)
                   = exec handleCallStart w1).
  { unfold step, exec; simpl.
    by rewrite (emit_call_start w1 _ c1 JUndefined Hc1 eq_refl). }
  rewrite Hstep2. clear Hstep2.
  rewrite step_click_disconnect by (simpl; by rewrite Hd).
  erewrite step_settle by (simpl; by rewrite Hawait).
  match goal with
  | |- context [exec (endCall_settled _ _ _) ?w3] =>
      destruct (endCall_settled_teardown w3 (length (channels w)) c1 data
                  stop_throws)
        as (w' & Hsettled & Hpage & Hch & Hposts & _ & Hrouted & _);
        [exact Hc1|reflexivity|reflexivity|]
  end.
  exists w'. unfold exec at 1. rewrite Hsettled.
  split; [reflexivity|]. simpl in Hpage, Hch, Hposts, Hrouted.
  rewrite Hpage, Hch, Hposts, Hrouted. simpl.
  rewrite Hd. repeat split.
  - rewrite list_lookup_insert_eq; [done|]. rewrite length_app; simpl; lia.
  - rewrite insert_app_r_alt, Nat.sub_diag by done. simpl.
    by rewrite take_app_length.
  - rewrite length_insert, length_app; simpl; lia.
Qed.

Lemma start_then_stop_leaves_no_listener_witness :
  sessionDetail (page demo_ready) = Some demo_session
  ∧ idle (page demo_ready) = true
  ∧ absent (NEXT_PUBLIC_VAPI_API_KEY demo_ready) = false
  ∧ awaiting demo_ready = []
  ∧ ∃ w', run demo_ready
            [ClickStart;
             Emit (length (channels demo_ready)) "call-start" JUndefined;
             ClickDisconnect;
             PostSettles 0 (Resolved JNull) true] = w'
          ∧ idle (page w') = true
          ∧ listeners <$> channels w' !! 0 = Some []
          ∧ length (posts w') = 1.
Proof.
  split; [reflexivity|]. split; [reflexivity|]. split; [reflexivity|].
  split; [reflexivity|].
  destruct (start_then_stop_leaves_no_listener demo_ready demo_session
              JNull true eq_refl eq_refl eq_refl eq_refl)
    as (w' & Hrun & Hidle & _ & _ & Hoff & _ & _ & Hposts & _).
  exists w'. split; [exact Hrun|]. split; [exact Hidle|].
  split; [exact Hoff|]. by rewrite Hposts.
Defined.

Lemma fmap_listeners_alter (f : Vapi → Vapi) v (chans : list Vapi) :
  (∀ c, listeners (f c) = listeners c) →
  listeners <$> alter f v chans = listeners <$> chans.
Proof.
  intros Hf. apply list_eq. intros j. rewrite !list_lookup_fmap.
  destruct (decide (j = v)) as [->|Hne].
  - rewrite list_lookup_alter_eq. destruct (chans !! v); simpl; [|done].
    by rewrite Hf.
  - by rewrite list_lookup_alter_ne.
Qed.

Lemma endCall_settled_without_ref w v data stop_throws :
  vapiHandlersRef (page w) = None →
  ∃ w', endCall_settled (Some v) (Resolved data) stop_throws w
        = (Normal tt, w')
        ∧ listeners <$> channels w' = listeners <$> channels w
        ∧ page w' = cleared_page (page w)
        ∧ routed w' = routed w ++ ["/dashboard"].
Proof.
  intros Href.
  destruct w as [[sd cs vi cr lt ms ld ref] key aid sid gen n chans ps ts rs ks].
  simpl in *. subst ref.
  unfold endCall_settled, try_catch, mbind, M_bind, reads.
  destruct stop_throws; simpl;
    (eexists; split; [reflexivity|]); simpl; repeat split.
  by apply fmap_listeners_alter.
Qed.

Lemma handleCallEnd_effect w :
  handleCallEnd w = (Normal tt, with_page cleared_page w).
Proof. reflexivity. Qed.

(** X14: when the channel's call-end handler, or its error handler, runs
    while the report of a Disconnect is still awaited, the second half of
    [endCall] finds the handler ref cleared: it still stops the channel,
    resets the page, announces the report and redirects, but it removes
    no listener from any [Vapi] object. *)
Theorem reset_during_report_keeps_listeners (w : World) (v : nat)
    (err data : JsVal) (stop_throws : bool) :
  (∃ w', endCall_settled (Some v) (Resolved data) stop_throws
           (exec handleCallEnd w) = (Normal tt, w')
         ∧ listeners <$> channels w' = listeners <$> channels w
         ∧ page w' = cleared_page (page w)
         ∧ routed w' = routed w ++ ["/dashboard"])
  ∧ (∃ w', endCall_settled (Some v) (Resolved data) stop_throws
             (exec (handleError err) w) = (Normal tt, w')
           ∧ listeners <$> channels w' = listeners <$> channels w
           ∧ page w' = cleared_page (page w)
           ∧ routed w' = routed w ++ ["/dashboard"]).
Proof.
  unfold exec. rewrite handleError_effect, handleCallEnd_effect.
  split.
  - destruct (endCall_settled_without_ref (with_page cleared_page w) v data
                stop_throws eq_refl) as (w' & Hs & Hl & Hp & Hr).
    exists w'. by repeat split.
  - match goal with
    | |- context [endCall_settled _ _ _ ?w0] =>
        destruct (endCall_settled_without_ref w0 v data stop_throws eq_refl)
          as (w' & Hs & Hl & Hp & Hr)
    end.
    exists w'. by repeat split.
Qed.

(** X15: the call-end handler does not look at which [Vapi] object the
    event comes from. A call-end emitted by any object that still
    carries the listeners of its [StartCall] resets the page and clears
    the ref, whatever object the page currently holds, and changes
    nothing else: no channel is stopped and no listener removed. *)
Theorem call_end_from_any_channel_resets_the_page (w : World) (v : nat)
    (c : Vapi) (payload : JsVal) :
  channels w !! v = Some c →
  listeners c = registered_by v →
  emit v "call-end" payload w = (Normal tt, with_page cleared_page w).
Proof.
  intros Hc Hl. by rewrite (emit_call_end w v c payload Hc Hl).
Qed.

Lemma call_end_from_any_channel_resets_the_page_witness :
  channels demo_second_call !! 0 = Some demo_channel
  ∧ listeners demo_channel = registered_by 0
  ∧ vapiInstance (page demo_second_call) = Some 1
  ∧ callStarted (page demo_second_call) = true
  ∧ emit 0 "call-end" JUndefined demo_second_call
    = (Normal tt, with_page cleared_page demo_second_call).
Proof.
  split; [reflexivity|]. split; [reflexivity|]. split; [reflexivity|].
  split; [reflexivity|].
  apply (call_end_from_any_channel_resets_the_page demo_second_call 0
           demo_channel JUndefined); reflexivity.
Defined.

(** X16: two Disconnect clicks in a row post one report. A click on the
    enabled Disconnect button posts the report of the current log, sets
    the loading flag and tears nothing down (the channels are as they
    were and the call is still flagged as started); in the world that
    click leaves, before anything else happens, a further Disconnect
    click and a Start click both do nothing. *)
Theorem second_disconnect_click_is_ignored (w : World) :
  disconnect_enabled (page w) = true →
  ∃ w1, click_disconnect w = (Normal tt, w1)
        ∧ posts w1 = posts w ++ [report_of w]
        ∧ channels w1 = channels w
        ∧ callStarted (page w1) = true
        ∧ click_disconnect w1 = (Normal tt, w1)
        ∧ click_start w1 = (Normal tt, w1).
Proof.
  intros Hen. unfold click_disconnect at 1.
  unfold mbind, M_bind, reads. rewrite Hen.
  eexists. split; [reflexivity|]. simpl.
  unfold disconnect_enabled in Hen.
  apply andb_prop in Hen as [Hen _]. apply andb_prop in Hen as [_ Hcs].
  repeat split; try done.
  - unfold click_disconnect, disconnect_enabled, mbind, M_bind, reads; simpl.
    by rewrite andb_false_r.
  - apply click_start_blocked. by right.
Qed.

Lemma second_disconnect_click_is_ignored_witness :
  disconnect_enabled (page demo_talking) = true
  ∧ ∃ w1, click_disconnect demo_talking = (Normal tt, w1)
          ∧ posts w1 = posts demo_talking ++ [report_of demo_talking]
          ∧ channels w1 = channels demo_talking
          ∧ callStarted (page w1) = true
          ∧ click_disconnect w1 = (Normal tt, w1)
          ∧ click_start w1 = (Normal tt, w1).
Proof.
  split; [reflexivity|].
  apply (second_disconnect_click_is_ignored demo_talking). reflexivity.
Defined.

(** X17: the buttons right after a Start click. In the world left by the
    Start click that opened the channel from the idle page, before
    anything else happens, the page holds the new object, Start is
    disabled and Disconnect is not enabled, so a Disconnect click does
    nothing; when the channel's call-start is handled in that world,
    Disconnect is enabled and Start is not. *)
Theorem no_button_responds_while_connecting (w : World) (d : SessionDetail) :
  sessionDetail (page w) = Some d →
  idle (page w) = true →
  absent (NEXT_PUBLIC_VAPI_API_KEY w) = false →
  ∃ w1, click_start w = (Normal tt, w1)
        ∧ vapiInstance (page w1) = Some (length (channels w))
        ∧ start_enabled (page w1) = false
        ∧ disconnect_enabled (page w1) = false
        ∧ click_disconnect w1 = (Normal tt, w1)
        ∧ disconnect_enabled (page (exec handleCallStart w1)) = true
        ∧ start_enabled (page (exec handleCallStart w1)) = false.
Proof.
  intros Hd Hidle Hkey. apply idle_inv in Hidle as (Hcs & Hvi & Hld).
  exists (opened d w).
  split.
  { unfold click_start, start_enabled, mbind, M_bind, reads.
    rewrite Hd, Hcs, Hld; simpl. by apply StartCall_exact. }
  unfold click_disconnect, disconnect_enabled, start_enabled,
    mbind, M_bind, reads; simpl.
  rewrite Hd, Hcs; simpl. by repeat split.
Qed.

Lemma no_button_responds_while_connecting_witness :
  sessionDetail (page demo_ready) = Some demo_session
  ∧ idle (page demo_ready) = true
  ∧ absent (NEXT_PUBLIC_VAPI_API_KEY demo_ready) = false
  ∧ ∃ w1, click_start demo_ready = (Normal tt, w1)
          ∧ vapiInstance (page w1) = Some (length (channels demo_ready))
          ∧ start_enabled (page w1) = false
          ∧ disconnect_enabled (page w1) = false
          ∧ click_disconnect w1 = (Normal tt, w1)
          ∧ disconnect_enabled (page (exec handleCallStart w1)) = true
          ∧ start_enabled (page (exec handleCallStart w1)) = false.
Proof.
  split; [reflexivity|]. split; [reflexivity|]. split; [reflexivity|].
  apply (no_button_responds_while_connecting demo_ready demo_session);
    reflexivity.
Defined.

(** X18: the reset handlers can run twice without further effect on the
    page. A call-end after a call-end, or after an error, changes
    nothing at all; an error after a call-end shows its toast and leaves
    the page state as the call-end left it. *)
Theorem reset_handlers_are_idempotent (w : World) (err : JsVal) :
  exec handleCallEnd (exec handleCallEnd w) = exec handleCallEnd w
  ∧ exec handleCallEnd (exec (handleError err) w) = exec (handleError err) w
  ∧ page (exec (handleError err) (exec handleCallEnd w))
    = page (exec handleCallEnd w).
Proof.
  unfold exec. rewrite !handleError_effect.
  destruct w as [[sd cs vi cr lt ms ld ref] key aid sid gen n chans ps ts rs ks].
  by repeat split.
Qed.

(** X19: nothing can be started before the session details have
    arrived. While [sessionDetail] is unset the page renders neither
    button, and any sequence of Start clicks, Disconnect clicks and
    direct runs of [StartCall] leaves the whole world as it is: no
    channel is opened, nothing is posted and no toast is shown. *)
Theorem nothing_starts_before_the_session_loads (w : World)
    (tr : list Action) :
  sessionDetail (page w) = None →
  Forall (λ a, a = ClickStart ∨ a = ClickDisconnect ∨ a = CallStartCall) tr →
  run w tr = w ∧ main (render (page w)) = None.
Proof.
  intros Hd Hall. split; [|unfold render; by rewrite Hd].
  induction Hall as [|a tr Ha _ IH]; [done|].
  simpl. assert (Hstep : step w a = w); [|by rewrite Hstep].
  unfold step, exec.
  destruct Ha as [->| [->| ->]]; simpl;
    unfold click_start, click_disconnect, start_enabled, disconnect_enabled,
      StartCall, mbind, M_bind, reads; by rewrite Hd.
Qed.

Lemma nothing_starts_before_the_session_loads_witness :
  sessionDetail (page (mount (Some "vapi-key") None "s-42" pretty)) = None
  ∧ Forall (λ a, a = ClickStart ∨ a = ClickDisconnect ∨ a = CallStartCall)
      [ClickStart; CallStartCall; ClickDisconnect]
  ∧ run (mount (Some "vapi-key") None "s-42" pretty)
      [ClickStart; CallStartCall; ClickDisconnect]
    = mount (Some "vapi-key") None "s-42" pretty
  ∧ main (render (page (mount (Some "vapi-key") None "s-42" pretty))) = None.
Proof.
  assert (Hall : Forall (λ a, a = ClickStart ∨ a = ClickDisconnect
                              ∨ a = CallStartCall)
                   [ClickStart; CallStartCall; ClickDisconnect])
    by (repeat constructor; auto).
  split; [reflexivity|]. split; [exact Hall|].
  apply (nothing_starts_before_the_session_loads
           (mount (Some "vapi-key") None "s-42" pretty) _ eq_refl Hall).
Defined.

Lemma log_ids_are_distinct_witness :
  Inj (=) (=) (pretty : nat → string)
  ∧ NoDup (id <$> messages (page (run
      (mount (Some "vapi-key") None "s-42" pretty)
      [SessionLoaded demo_session; ClickStart;
       Emit 0 "message" (transcript_message "final" "user" "I have a headache");
       Emit 0 "message" (transcript_message "final" "assistant" "How long?")])))
  ∧ NoDup (id <$> slice_last 4 (messages (page (run
      (mount (Some "vapi-key") None "s-42" pretty)
      [SessionLoaded demo_session; ClickStart;
       Emit 0 "message" (transcript_message "final" "user" "I have a headache");
       Emit 0 "message" (transcript_message "final" "assistant" "How long?")])))).
Proof.
  split; [apply _|].
  apply (log_ids_are_distinct (Some "vapi-key") None "s-42" pretty).
  apply _.
Defined.

(** X20: an error while the call is connecting lets the user try again.
    From the idle page with a session loaded and the key present, a
    Start click followed by the channel's error event ends with the page
    idle and the Start button enabled, the normalized message shown as
    an error toast and nothing posted; the [Vapi] object that was opened
    is left as it is, not stopped and with its six listeners. *)
Theorem error_while_connecting_allows_retry (w : World) (d : SessionDetail)
    (err : JsVal) :
  sessionDetail (page w) = Some d →
  idle (page w) = true →
  absent (NEXT_PUBLIC_VAPI_API_KEY w) = false →
  ∃ w', run w [ClickStart; Emit (length (channels w)) "error" err] = w'
        ∧ idle (page w') = true
        ∧ start_enabled (page w') = true
        ∧ toasts w' = toasts w ++
            [{| level := toast_error;
                body := JStr (resolve handleError_rules
                                "Call ended unexpectedly." err) |}]
        ∧ posts w' = posts w
        ∧ channels w' = channels w ++
            [{| v_apiKey := default "" (NEXT_PUBLIC_VAPI_API_KEY w);
                listeners := registered_by (length (channels w));
                started := Some (start_arg w d); stopped := false |}].
Proof.
  intros Hd Hidle Hkey. apply idle_inv in Hidle as (Hcs & Hvi & Hld).
  unfold run; cbn [foldl].
  rewrite (step_click_start_opens w d) by done.
  set (c1 := {| v_apiKey := default "" (NEXT_PUBLIC_VAPI_API_KEY w);
                listeners := registered_by (length (channels w));
                started := Some (start_arg w d); stopped := false |}).
  assert (Hc1 : channels (opened d w) !! length (channels w) = Some c1)
    by (by apply list_lookup_middle).
  unfold step, exec; simpl.
  rewrite (emit_error (opened d w) _ c1 err Hc1 eq_refl), handleError_effect.
  eexists. split; [reflexivity|]. simpl. rewrite Hd. by repeat split.
Qed.

Lemma error_while_connecting_allows_retry_witness :
  sessionDetail (page demo_ready) = Some demo_session
  ∧ idle (page demo_ready) = true
  ∧ absent (NEXT_PUBLIC_VAPI_API_KEY demo_ready) = false
  ∧ ∃ w', run demo_ready
            [ClickStart;
             Emit (length (channels demo_ready)) "error"
               (JObj [("error", JObj [("errorMsg", JStr "no microphone")])])]
          = w'
          ∧ idle (page w') = true
          ∧ start_enabled (page w') = true
          ∧ toasts w' = [{| level := toast_error;
                            body := JStr "no microphone" |}]
          ∧ listeners <$> channels w' = [registered_by 0].
Proof.
  split; [reflexivity|]. split; [reflexivity|]. split; [reflexivity|].
  destruct (error_while_connecting_allows_retry demo_ready demo_session
              (JObj [("error", JObj [("errorMsg", JStr "no microphone")])])
              eq_refl eq_refl eq_refl)
    as (w' & Hrun & Hidle & Hstart & Htoasts & _ & Hch).
  exists w'. split; [exact Hrun|]. split; [exact Hidle|].
  split; [exact Hstart|]. split; [exact Htoasts|]. by rewrite Hch.
Defined.


